(** * Interview coach: session orchestration core

    A shallow embedding of [core_models.py], [module_interface.py] and
    [exception_handler.py]: the stage machine, the session record, the
    response envelope, the input validator, the recovery handlers and the
    safe invocation wrapper, followed by the properties proved of them. *)

From Stdlib Require Import ZArith NArith String Ascii DecimalString.
From stdpp Require Import base decidable countable gmap list.

Local Open Scope N_scope.

(** ** Python text

    A Python [str] is a sequence of Unicode code points; [len], slicing and
    [strip] count code points, not bytes.  Literals that are pure ASCII are
    written with [py]; the others are spelled out as code points. *)

Definition codepoint : Type := N.
Definition pystr : Type := list codepoint.

Definition py (s : string) : pystr :=
  map N_of_ascii (list_ascii_of_string s).
Arguments py s%_string : simpl never.

(** [str(n)] for a non-negative integer. *)
Fixpoint digits_of_uint (d : Decimal.uint) : pystr :=
  match d with
  | Decimal.Nil => []
  | Decimal.D0 r => 48 :: digits_of_uint r
  | Decimal.D1 r => 49 :: digits_of_uint r
  | Decimal.D2 r => 50 :: digits_of_uint r
  | Decimal.D3 r => 51 :: digits_of_uint r
  | Decimal.D4 r => 52 :: digits_of_uint r
  | Decimal.D5 r => 53 :: digits_of_uint r
  | Decimal.D6 r => 54 :: digits_of_uint r
  | Decimal.D7 r => 55 :: digits_of_uint r
  | Decimal.D8 r => 56 :: digits_of_uint r
  | Decimal.D9 r => 57 :: digits_of_uint r
  end.

Definition str_of_N (n : N) : pystr := digits_of_uint (N.to_uint n).

(** [str.isspace] on one code point: the characters [str.strip()] removes. *)
Definition isspace (c : codepoint) : bool :=
  ((9 <=? c) && (c <=? 13)) || ((28 <=? c) && (c <=? 32))
  || (c =? 133) || (c =? 160) || (c =? 5760)
  || ((8192 <=? c) && (c <=? 8202))
  || (c =? 8232) || (c =? 8233) || (c =? 8239) || (c =? 8287) || (c =? 12288).

Fixpoint lstrip (s : pystr) : pystr :=
  match s with
  | [] => []
  | c :: r => if isspace c then lstrip r else s
  end.

Definition rstrip (s : pystr) : pystr := rev (lstrip (rev s)).

(** [s.strip()] *)
Definition strip (s : pystr) : pystr := rstrip (lstrip s).

(** [s == t] *)
Definition str_eqb (s t : pystr) : bool := bool_decide (s = t).

(** [s.startswith(p)] *)
Fixpoint startswith (p s : pystr) : bool :=
  match p, s with
  | [], _ => true
  | _ :: _, [] => false
  | a :: p', b :: s' => (a =? b) && startswith p' s'
  end.

(** [kw in s] for two strings: [kw] occurs in [s] as a contiguous run. *)
Fixpoint str_contains (kw s : pystr) : bool :=
  startswith kw s ||
  match s with
  | [] => false
  | _ :: s' => str_contains kw s'
  end.

(** [x in l] for a list of strings. *)
Definition list_contains (x : pystr) (l : list pystr) : bool :=
  existsb (str_eqb x) l.

(** [l[-n:]] *)
Definition slice_last {A} (n : nat) (l : list A) : list A :=
  drop (length l - n) l.

(** [str.lower] restricted to ASCII text: the letters A-Z move to a-z and
    everything else stays.  On text with cased characters outside ASCII the
    interpreter's [str.lower] differs, which is why the validator below takes
    the lowering function as a parameter. *)
Definition ascii_lower (s : pystr) : pystr :=
  map (fun c => if (65 <=? c) && (c <=? 90) then c + 32 else c) s.

(** ** Enumerations of core_models.py *)

Inductive Stage : Type :=
  | PROBLEM_CLARIFICATION
  | THOUGHT_ARTICULATION
  | COMPLEXITY_ANALYSIS
  | PSEUDOCODE_DESIGN
  | EDGE_CASE_CHECK
  | FOLLOW_UP
  | PATTERN_SUMMARY.

Definition Stage_value (s : Stage) : N :=
  match s with
  | PROBLEM_CLARIFICATION => 0
  | THOUGHT_ARTICULATION => 1
  | COMPLEXITY_ANALYSIS => 2
  | PSEUDOCODE_DESIGN => 3
  | EDGE_CASE_CHECK => 4
  | FOLLOW_UP => 5
  | PATTERN_SUMMARY => 6
  end.

Definition Stage_of_value (n : N) : option Stage :=
  match n with
  | 0 => Some PROBLEM_CLARIFICATION
  | 1 => Some THOUGHT_ARTICULATION
  | 2 => Some COMPLEXITY_ANALYSIS
  | 3 => Some PSEUDOCODE_DESIGN
  | 4 => Some EDGE_CASE_CHECK
  | 5 => Some FOLLOW_UP
  | 6 => Some PATTERN_SUMMARY
  | _ => None
  end.

(** [stage.name] *)
Definition Stage_name (s : Stage) : pystr :=
  match s with
  | PROBLEM_CLARIFICATION => py "PROBLEM_CLARIFICATION"
  | THOUGHT_ARTICULATION => py "THOUGHT_ARTICULATION"
  | COMPLEXITY_ANALYSIS => py "COMPLEXITY_ANALYSIS"
  | PSEUDOCODE_DESIGN => py "PSEUDOCODE_DESIGN"
  | EDGE_CASE_CHECK => py "EDGE_CASE_CHECK"
  | FOLLOW_UP => py "FOLLOW_UP"
  | PATTERN_SUMMARY => py "PATTERN_SUMMARY"
  end.

#[global] Instance Stage_eq_dec : EqDecision Stage.
Proof. solve_decision. Defined.

#[global] Program Instance Stage_countable : Countable Stage :=
  inj_countable Stage_value Stage_of_value _.
Next Obligation. by intros []. Qed.

Definition all_stages : list Stage :=
  [PROBLEM_CLARIFICATION; THOUGHT_ARTICULATION; COMPLEXITY_ANALYSIS;
   PSEUDOCODE_DESIGN; EDGE_CASE_CHECK; FOLLOW_UP; PATTERN_SUMMARY].

Inductive ExceptionLevel : Type :=
  | CRITICAL   (* 1 *)
  | ERROR      (* 2 *)
  | WARNING    (* 3 *)
  | INFO.      (* 4 *)

#[global] Instance ExceptionLevel_eq_dec : EqDecision ExceptionLevel.
Proof. solve_decision. Defined.

(** ** Values stored under [Any] *)

#[local] Unset Elimination Schemes.
Inductive PyVal : Type :=
  | VNone
  | VBool (b : bool)
  | VInt (z : Z)
  | VStr (s : pystr)
  | VStage (s : Stage)
  | VList (l : list PyVal).
#[local] Set Elimination Schemes.

Definition VStages (l : list Stage) : PyVal := VList (map VStage l).

(** ** Messages, session state and the response envelope *)

(** [datetime.now().timestamp()]: POSIX time.  No modelled function inspects
    the value; it is kept as a count of microseconds. *)
Definition timestamp : Type := Z.

Record Message : Type := {
  role : pystr;            (* "user" or "assistant" *)
  content : pystr;
  timestamp_of : timestamp;
  stage : Stage
}.

Record InterviewContext : Type := {
  session_id : pystr;
  problem_text : pystr;
  problem_metadata : gmap pystr PyVal;
  current_stage : Stage;
  stage_history : list Stage;
  stage_start_time : timestamp;
  conversation_history : list Message;
  current_user_input : pystr;
  identified_pattern : option pystr;
  complexity_expectation : option pystr;
  user_approach : option pystr;
  pseudocode : option pystr;
  detected_issues : list pystr;
  consecutive_invalid_inputs : Z;
  skip_requested : bool;
  skipped_stages : list Stage;
  frustration_detected : bool;
  answer_requests : Z;
  metadata : gmap pystr PyVal;
  user_profile : option (gmap pystr PyVal)
}.

(** The envelope's own [metadata] field is [response_metadata] here, the name
    [metadata] being taken by the session record. *)
Record ModuleResponse : Type := {
  success : bool;
  assistant_message : pystr;
  next_stage : option Stage;
  context_updates : gmap pystr PyVal;
  response_metadata : gmap pystr PyVal;
  error_message : option pystr;
  exception_level : option ExceptionLevel
}.

(** ** Exceptions

    The classes of exception_handler.py, [ValueError], and two catch-alls: any
    other subclass of [Exception], and what lies outside [Exception]
    ([KeyboardInterrupt], [SystemExit]), which [except Exception] lets
    through.  The text carried by the last three is [str(e)]. *)

Inductive PyExc : Type :=
  | InterviewCoachException (message : pystr) (level : ExceptionLevel)
  | LLMCallException (message : pystr) (level : ExceptionLevel)
  | StateInconsistencyException (message : pystr) (level : ExceptionLevel)
  | InvalidInputException (message : pystr) (input_type : pystr)
  | ValueError (text : pystr)
  | OtherException (text : pystr)
  | NonException (text : pystr).

(** [str(e)]: the coach exceptions pass [message] to [Exception.__init__]. *)
Definition exc_str (e : PyExc) : pystr :=
  match e with
  | InterviewCoachException m _ | LLMCallException m _
  | StateInconsistencyException m _ | InvalidInputException m _ => m
  | ValueError t | OtherException t | NonException t => t
  end.

(** [isinstance(e, Exception)] *)
Definition is_Exception (e : PyExc) : bool :=
  match e with
  | NonException _ => false
  | _ => true
  end.

Inductive Outcome (A : Type) : Type :=
  | Returned (a : A)
  | Raised (e : PyExc).
Arguments Returned {A} a.
Arguments Raised {A} e.

(** [ModuleResponse(...)]: the dataclass constructor followed by
    [__post_init__]; an empty string and [None] are both falsy. *)
Definition ModuleResponse_init
    (success : bool) (assistant_message : pystr) (next_stage : option Stage)
    (context_updates response_metadata : gmap pystr PyVal)
    (error_message : option pystr) (exception_level : option ExceptionLevel)
    : Outcome ModuleResponse :=
  if success && bool_decide (assistant_message = []) then
    Raised (ValueError (py "Success response must have assistant_message"))
  else if negb success
          && bool_decide (error_message = None \/ error_message = Some []) then
    Raised (ValueError (py "Failed response must have error_message"))
  else
    Returned {| success := success;
                assistant_message := assistant_message;
                next_stage := next_stage;
                context_updates := context_updates;
                response_metadata := response_metadata;
                error_message := error_message;
                exception_level := exception_level |}.

Definition create_success_response
    (message : pystr) (next_stage : option Stage)
    (context_updates : gmap pystr PyVal) : Outcome ModuleResponse :=
  ModuleResponse_init true message next_stage context_updates ∅ None None.

Definition create_error_response
    (error_msg : pystr) (level : ExceptionLevel) : Outcome ModuleResponse :=
  ModuleResponse_init false
    (py "I encountered an issue. Let me try to help you another way.")
    None ∅ ∅ (Some error_msg) (Some level).

(** ** Constants: the stage machine *)

Definition STAGE_TRANSITION_RULES : gmap Stage (option Stage) :=
  <[PROBLEM_CLARIFICATION := Some THOUGHT_ARTICULATION]>
  (<[THOUGHT_ARTICULATION := Some COMPLEXITY_ANALYSIS]>
  (<[COMPLEXITY_ANALYSIS := Some PSEUDOCODE_DESIGN]>
  (<[PSEUDOCODE_DESIGN := Some EDGE_CASE_CHECK]>
  (<[EDGE_CASE_CHECK := Some FOLLOW_UP]>
  (<[FOLLOW_UP := Some PATTERN_SUMMARY]>
  (<[PATTERN_SUMMARY := None]> ∅)))))).

Definition SKIPPABLE_STAGES : gset Stage :=
  {[ COMPLEXITY_ANALYSIS; PATTERN_SUMMARY ]}.

Definition CRITICAL_STAGES : gset Stage :=
  {[ THOUGHT_ARTICULATION; PSEUDOCODE_DESIGN; EDGE_CASE_CHECK ]}.

(** [d.get(k)]: the value, or [None] when the key is absent; the values of
    the transition table are themselves optional. *)
Definition dict_get_opt {K} `{Countable K} {V}
    (d : gmap K (option V)) (k : K) : option V :=
  match d !! k with
  | Some v => v
  | None => None
  end.

(** [d.get(k, dflt)] *)
Definition dict_get {K} `{Countable K} {V} (d : gmap K V) (k : K) (dflt : V) : V :=
  match d !! k with
  | Some v => v
  | None => dflt
  end.

(** ** The world the handlers run in

    The handlers receive a reference to the session object, write to the
    process-wide logger, sleep, and draw from the random generator.  The
    world holds the session object and the generator; everything observable
    is appended to one trace, oldest first. *)

Inductive LogLevel : Type := LOG_INFO | LOG_WARNING | LOG_ERROR | LOG_CRITICAL.

Inductive Event : Type :=
  | EvLog (lvl : LogLevel) (msg : pystr)      (* logger.info / warning / ... *)
  | EvSleep (seconds : N)                     (* time.sleep *)
  | EvValidateContext (module : pystr)        (* module.validate_context(context) *)
  | EvProcess (module : pystr).               (* module.process(context) *)

Record World : Type := {
  session : InterviewContext;   (* the object [context] refers to *)
  trace : list Event;
  entropy : nat -> nat;         (* raw output of the generator, by draw *)
  draws : nat;
  clock : nat -> timestamp;     (* successive readings of the wall clock *)
  ticks : nat
}.

Definition with_session (c : InterviewContext) (w : World) : World :=
  {| session := c; trace := trace w; entropy := entropy w; draws := draws w;
     clock := clock w; ticks := ticks w |}.

Definition with_event (ev : Event) (w : World) : World :=
  {| session := session w; trace := trace w ++ [ev]; entropy := entropy w;
     draws := draws w; clock := clock w; ticks := ticks w |}.

Definition with_draw (w : World) : World :=
  {| session := session w; trace := trace w; entropy := entropy w;
     draws := S (draws w); clock := clock w; ticks := ticks w |}.

Definition with_tick (w : World) : World :=
  {| session := session w; trace := trace w; entropy := entropy w;
     draws := draws w; clock := clock w; ticks := S (ticks w) |}.

(** Computations: a result or a raised exception, and the world after. *)
Definition M (A : Type) : Type := World -> Outcome A * World.

#[global] Instance M_ret : MRet M := fun A a w => (Returned a, w).

#[global] Instance M_bind : MBind M := fun A B f c w =>
  match c w with
  | (Returned a, w') => f a w'
  | (Raised e, w') => (Raised e, w')
  end.

Definition raise {A} (e : PyExc) : M A := fun w => (Raised e, w).

Definition lift {A} (o : Outcome A) : M A := fun w => (o, w).

(** Reading through the [context] reference. *)
Definition get_context : M InterviewContext := fun w => (Returned (session w), w).

Definition emit (ev : Event) : M unit := fun w => (Returned tt, with_event ev w).

Definition logger (lvl : LogLevel) (msg : pystr) : M unit := emit (EvLog lvl msg).

Definition sleep (seconds : N) : M unit := emit (EvSleep seconds).

(** [random.choice(seq)]: [seq[randbelow(len(seq))]]. *)
Definition random_choice {A} (seq : list A) : M A := fun w =>
  match seq !! (entropy w (draws w) mod length seq)%nat with
  | Some x => (Returned x, with_draw w)
  | None => (Raised (OtherException (py "Cannot choose from an empty sequence")), w)
  end.

Definition now : M timestamp := fun w => (Returned (clock w (ticks w)), with_tick w).

(** [try: body except ...]: [handler e] is the clause that matches [e], if
    one does; an exception raised inside a clause is not caught again. *)
Definition try_except {A} (body : M A) (handler : PyExc -> option (M A)) : M A :=
  fun w =>
    match body w with
    | (Returned a, w') => (Returned a, w')
    | (Raised e, w') =>
        match handler e with
        | Some h => h w'
        | None => (Raised e, w')
        end
    end.

(** Writing through the [context] reference. *)
Definition put_context (c : InterviewContext) : M unit :=
  fun w => (Returned tt, with_session c w).

(** The two methods of [InterviewContext]; they are the only code of the
    repository that writes to a session. *)
Definition add_message (role content : pystr) : M unit :=
  t ← now;
  c ← get_context;
  if bool_decide (role = py "user" \/ role = py "assistant") then
    put_context
      {| session_id := session_id c; problem_text := problem_text c;
         problem_metadata := problem_metadata c;
         current_stage := current_stage c;
         stage_history := stage_history c;
         stage_start_time := stage_start_time c;
         conversation_history :=
           conversation_history c
           ++ [{| role := role; content := content; timestamp_of := t;
                  stage := current_stage c |}];
         current_user_input := current_user_input c;
         identified_pattern := identified_pattern c;
         complexity_expectation := complexity_expectation c;
         user_approach := user_approach c; pseudocode := pseudocode c;
         detected_issues := detected_issues c;
         consecutive_invalid_inputs := consecutive_invalid_inputs c;
         skip_requested := skip_requested c;
         skipped_stages := skipped_stages c;
         frustration_detected := frustration_detected c;
         answer_requests := answer_requests c; metadata := metadata c;
         user_profile := user_profile c |}
  else raise (ValueError (py "Invalid role: " ++ role)).

Definition transition_to (next_stage : Stage) : M unit :=
  c ← get_context;
  t ← now;
  put_context
    {| session_id := session_id c; problem_text := problem_text c;
       problem_metadata := problem_metadata c;
       current_stage := next_stage;
       stage_history := stage_history c ++ [current_stage c];
       stage_start_time := t;
       conversation_history := conversation_history c;
       current_user_input := current_user_input c;
       identified_pattern := identified_pattern c;
       complexity_expectation := complexity_expectation c;
       user_approach := user_approach c; pseudocode := pseudocode c;
       detected_issues := detected_issues c;
       consecutive_invalid_inputs := consecutive_invalid_inputs c;
       skip_requested := skip_requested c;
       skipped_stages := skipped_stages c;
       frustration_detected := frustration_detected c;
       answer_requests := answer_requests c; metadata := metadata c;
       user_profile := user_profile c |}.

(** ** ExceptionHandler *)

Definition _get_fallback_template (stage : Stage) : pystr :=
  let templates : gmap Stage pystr :=
    <[PROBLEM_CLARIFICATION :=
        py "Let's make sure we understand the problem. What are the inputs and expected outputs?"]>
    (<[THOUGHT_ARTICULATION :=
        py "Let's think about this step by step. What would be the simplest approach to solve this, even if not optimal?"]>
    (<[COMPLEXITY_ANALYSIS :=
        py "Can you analyze the time and space complexity of your approach?"]>
    (<[PSEUDOCODE_DESIGN :=
        py "Now let's write out the pseudocode or main logic structure."]>
    (<[EDGE_CASE_CHECK :=
        py "What edge cases should we consider? Think about empty inputs, extreme values, etc."]>
    (<[FOLLOW_UP :=
        py "Great work! Now let's think about: could we optimize this further?"]>
    (<[PATTERN_SUMMARY :=
        py "Let's summarize: what pattern did we use here, and when would you use it again?"]>
     ∅)))))) in
  dict_get templates stage (py "Let's continue with the next step.").

Definition _get_stage_name_cn (stage : Stage) : pystr :=
  let names : gmap Stage pystr :=
    <[PROBLEM_CLARIFICATION := [39064; 24847; 30830; 35748]]>
    (<[THOUGHT_ARTICULATION := [24605; 36335; 35762; 35299]]>
    (<[COMPLEXITY_ANALYSIS := [22797; 26434; 24230; 20998; 26512]]>
    (<[PSEUDOCODE_DESIGN := [20195; 30721; 23454; 29616]]>
    (<[EDGE_CASE_CHECK := [36793; 30028; 26816; 26597]]>
    (<[FOLLOW_UP := [28145; 20837; 35752; 35770]]>
    (<[PATTERN_SUMMARY := [24635; 32467]]> ∅)))))) in
  dict_get names stage (Stage_name stage).

Definition _get_skip_reminder (stage : Stage) : pystr :=
  let reminders : gmap Stage pystr :=
    <[COMPLEXITY_ANALYSIS := py "discussing complexity shows analytical maturity"]>
    (<[PATTERN_SUMMARY := py "summarizing patterns helps you in future problems"]> ∅) in
  dict_get reminders stage (py "this step is valuable").

Definition _get_next_stage (current : Stage) : option Stage :=
  dict_get_opt STAGE_TRANSITION_RULES current.

Definition handle_skip_request : M ModuleResponse :=
  context ← get_context;
  let current := current_stage context in
  if bool_decide (current ∈ CRITICAL_STAGES) then
    logger LOG_WARNING
      (py "User attempted to skip critical stage: " ++ Stage_name current);;
    lift (create_success_response
      (py "I understand you want to move forward, but this stage is crucial for interview success. "
       ++ py "In real interviews, skipping **" ++ _get_stage_name_cn current
       ++ py "** would be a red flag. "
       ++ py "How about we spend just 2-3 minutes on this? It'll make a big difference.")
      None
      {[ py "skip_requested" := VBool true ]})
  else if bool_decide (current ∈ SKIPPABLE_STAGES) then
    let next := _get_next_stage current in
    let skipped := skipped_stages context ++ [current] in
    logger LOG_INFO (py "User skipped optional stage: " ++ Stage_name current);;
    lift (create_success_response
      (py "Okay, we can move on for now. But remember, in a real interview, "
       ++ _get_skip_reminder current ++ py ". Let's continue to the next part.")
      next
      {[ py "skipped_stages" := VStages skipped ]})
  else
    lift (create_success_response
      (py "Let's complete this part first before moving on.") None ∅).

Definition help_mode_message : pystr :=
  py "I notice you might be stuck. No worries! Let me help you with a more detailed hint."
  ++ [10; 10] ++ py "Try thinking about it this way: ["
  ++ [20855; 20307; 30340; 24341; 23548; 38382; 39064; 20250; 22312; 36825;
      37324; 29983; 25104]
  ++ py "]".

Definition _trigger_help_mode : M ModuleResponse :=
  lift (create_success_response help_mode_message None
    (<[ py "consecutive_invalid_inputs" := VInt 0 ]>
       {[ py "help_mode_triggered" := VBool true ]})).

Definition invalid_input_templates : gmap pystr pystr :=
  <[ py "empty" := py "I didn't catch that. Could you share your thoughts?" ]>
  (<[ py "too_short" := py "That's a bit brief! Could you elaborate a bit more?" ]>
  (<[ py "off_topic" := py "Hmm, that seems unrelated. Let me rephrase the question." ]>
  (<[ py "repeated" :=
        py "I notice you've said something similar before. Want to try a different angle?" ]>
   ∅))).

(** [d[k]] *)
Definition dict_item {V} (d : gmap pystr V) (k : pystr) : M V :=
  match d !! k with
  | Some v => mret v
  | None => raise (OtherException k)   (* KeyError *)
  end.

Definition handle_invalid_input (input_type : pystr) : M ModuleResponse :=
  context ← get_context;
  let templates := invalid_input_templates in
  let invalid_count := (consecutive_invalid_inputs context + 1)%Z in
  if (3 <=? invalid_count)%Z then
    logger LOG_WARNING
      (py "3 consecutive invalid inputs in session " ++ session_id context);;
    _trigger_help_mode
  else
    dflt ← dict_item templates (py "empty");
    lift (create_success_response
      (dict_get templates input_type dflt)
      None
      {[ py "consecutive_invalid_inputs" := VInt invalid_count ]}).

Definition encouragements : list pystr :=
  [ py "I can tell this is challenging, and that's completely normal! Even experienced engineers struggle with these problems at first.";
    py "Let me help you break this down into smaller steps. We'll tackle it together.";
    py "How about we approach this differently? Sometimes a fresh angle makes all the difference." ].

Definition hint_offer : pystr :=
  [10; 10] ++ py "Let me give you a helpful hint to get started.".

Definition handle_frustration : M ModuleResponse :=
  context ← get_context;
  logger LOG_INFO (py "Frustration detected in session " ++ session_id context);;
  encouragement ← random_choice encouragements;
  lift (create_success_response
    (encouragement ++ hint_offer)
    None
    (<[ py "frustration_detected" := VBool true ]>
       {[ py "hint_level" := VStr (py "detailed") ]})).

(** [retry_count] and [max_retries] are counts.  The result is [None] for
    "retry" and a response otherwise. *)
Definition handle_llm_failure (error : PyExc) (retry_count max_retries : N)
    : M (option ModuleResponse) :=
  if retry_count <? max_retries then
    let wait_time := 2 ^ retry_count in
    logger LOG_WARNING
      (py "LLM call failed, retrying in " ++ str_of_N wait_time
       ++ py "s (attempt " ++ str_of_N (retry_count + 1) ++ py "/"
       ++ str_of_N max_retries ++ py ")");;
    sleep wait_time;;
    mret None
  else
    logger LOG_ERROR
      (py "LLM call failed after " ++ str_of_N max_retries ++ py " retries: "
       ++ exc_str error);;
    context ← get_context;
    let fallback_msg := _get_fallback_template (current_stage context) in
    r ← lift (create_success_response fallback_msg None
                {[ py "fallback_used" := VBool true ]});
    mret (Some r).

(** ** InputValidator

    [str.lower] is the interpreter's Unicode lowering; the validator is
    stated over any such function ([ascii_lower] is the one on ASCII text). *)

Section InputValidator.

Variable lower : pystr -> pystr.

Definition off_topic_keywords : list pystr :=
  [ py "weather"; [22825; 27668]; [21507; 39277]; py "lunch";
    [28216; 25103]; py "game" ].

(** [any(kw in text for kw in keywords)] *)
Definition any_keyword_in (keywords : list pystr) (text : pystr) : bool :=
  existsb (fun kw => str_contains kw text) keywords.

Definition validate (user_input : pystr) (context : InterviewContext)
    : bool * option pystr :=
  if bool_decide (user_input = []) || str_eqb (strip user_input) [] then
    (false, Some (py "empty"))
  else if (length (strip user_input) <? 5)%nat then
    (false, Some (py "too_short"))
  else if (3 <=? length (conversation_history context))%nat
          && list_contains (strip user_input)
               (map content
                  (filter (fun msg => role msg = py "user")
                     (slice_last 3 (conversation_history context)))) then
    (false, Some (py "repeated"))
  else if any_keyword_in off_topic_keywords (lower user_input) then
    (false, Some (py "off_topic"))
  else
    (true, None).

Definition detect_skip_request (user_input : pystr) : bool :=
  any_keyword_in
    [ py "skip"; [36339; 36807]; [19979; 19968; 20010]; py "next"; py "pass" ]
    (lower user_input).



End InputValidator.

(** ** ModuleInterface and the safe invocation wrapper

    What [process] hands back is any Python object; [isinstance] tells a
    [ModuleResponse] from the rest.  A module is stateless and does not write
    to the session (the design rules stated in module_interface.py), so its
    methods are functions of the session they are shown. *)

Inductive PyObject : Type :=
  | ObjModuleResponse (r : ModuleResponse)
  | ObjOther (v : PyVal).

Record ModuleInterface : Type := {
  module_name : pystr;
  process : InterviewContext -> Outcome PyObject;
  should_activate : InterviewContext -> Outcome bool;
  validate_context : InterviewContext -> Outcome bool
}.

(** The default [validate_context] of the base class. *)
Definition default_validate_context (context : InterviewContext) : Outcome bool :=
  Returned true.

Definition call_validate_context (module : ModuleInterface)
    (context : InterviewContext) : M bool :=
  emit (EvValidateContext (module_name module));;
  lift (validate_context module context).

Definition call_process (module : ModuleInterface)
    (context : InterviewContext) : M PyObject :=
  emit (EvProcess (module_name module));;
  lift (process module context).

Definition safe_module_call (module : ModuleInterface)
    : M (option ModuleResponse) :=
  try_except
    (context ← get_context;
     ok ← call_validate_context module context;
     if negb ok then
       raise (StateInconsistencyException
                (py "Context validation failed for " ++ module_name module) ERROR)
     else
       response ← call_process module context;
       match response with
       | ObjModuleResponse r => mret (Some r)
       | ObjOther _ =>
           raise (ValueError
                    (module_name module ++ py " returned invalid response type"))
       end)
    (fun e =>
       match e with
       | LLMCallException _ _ => Some (handle_llm_failure e 0 3)
       | StateInconsistencyException message _ =>
           Some (logger LOG_ERROR (py "State inconsistency: " ++ message);;
                 r ← lift (create_error_response message ERROR);
                 mret (Some r))
       | NonException _ => None
       | _ =>
           Some (logger LOG_CRITICAL
                   (py "Unexpected exception in " ++ module_name module
                    ++ py ": " ++ exc_str e);;
                 r ← lift (create_error_response
                             (py "Unexpected error: " ++ exc_str e) CRITICAL);
                 mret (Some r))
       end).

(** ** Reading a trace *)

Definition sleeps (t : list Event) : list N :=
  omap (fun ev => match ev with EvSleep n => Some n | _ => None end) t.

Definition is_process_call (ev : Event) : bool :=
  match ev with
  | EvProcess _ => true
  | _ => false
  end.

Definition process_calls (t : list Event) : nat :=
  length (List.filter is_process_call t).

Arguments sleeps : simpl never.
Arguments process_calls : simpl never.

(** ** Sessions and modules used as examples *)

(** [create_mock_context] of core_models.py; the start time is read from the
    clock. *)
Definition create_mock_context
    (problem_text : pystr) (current_stage : Stage) (session_id : pystr)
    : M InterviewContext :=
  t ← now;
  mret {| session_id := session_id; problem_text := problem_text;
          problem_metadata :=
            <[ py "difficulty" := VStr (py "Medium") ]>
              {[ py "tags" := VList [VStr (py "Array")] ]};
          current_stage := current_stage; stage_history := [];
          stage_start_time := t; conversation_history := [];
          current_user_input := []; identified_pattern := None;
          complexity_expectation := None; user_approach := None;
          pseudocode := None; detected_issues := [];
          consecutive_invalid_inputs := 0%Z; skip_requested := false;
          skipped_stages := []; frustration_detected := false;
          answer_requests := 0%Z; metadata := ∅; user_profile := None |}.

(** A session at [stage] whose invalid-input counter reads [count]. *)
Definition sample_session (stage : Stage) (count : Z) : InterviewContext :=
  {| session_id := py "test_session"; problem_text := py "Sample problem";
     problem_metadata :=
       <[ py "difficulty" := VStr (py "Medium") ]>
         {[ py "tags" := VList [VStr (py "Array")] ]};
     current_stage := stage; stage_history := [];
     stage_start_time := 0%Z; conversation_history := [];
     current_user_input := []; identified_pattern := None;
     complexity_expectation := None; user_approach := None;
     pseudocode := None; detected_issues := [];
     consecutive_invalid_inputs := count; skip_requested := false;
     skipped_stages := []; frustration_detected := false;
     answer_requests := 0%Z; metadata := ∅; user_profile := None |}.

Definition sample_world (stage : Stage) (count : Z) : World :=
  {| session := sample_session stage count; trace := [];
     entropy := fun n => n; draws := 0; clock := fun _ => 0%Z; ticks := 0 |}.

(** A session at the clarification stage whose log holds one message of
    the user followed by two replies. *)
Definition sample_said : Message :=
  {| role := py "user"; content := py "use a hash table";
     timestamp_of := 0%Z; stage := PROBLEM_CLARIFICATION |}.

Definition sample_reply : Message :=
  {| role := py "assistant"; content := py "Go on.";
     timestamp_of := 0%Z; stage := PROBLEM_CLARIFICATION |}.

Definition sample_session_with_log : InterviewContext :=
  session
    (snd (mapM (fun m => add_message (role m) (content m))
            [sample_said; sample_reply; sample_reply]
            (sample_world PROBLEM_CLARIFICATION 0))).

(** A module whose generation call fails each time it is made. *)
Definition failing_module : ModuleInterface :=
  {| module_name := py "GuidedThoughtGenerator";
     process := fun _ => Raised (LLMCallException (py "upstream unavailable") ERROR);
     should_activate := fun _ => Returned true;
     validate_context := default_validate_context |}.

(** A module whose [process] hands back [None] instead of a response. *)
Definition malformed_module : ModuleInterface :=
  {| module_name := py "ProblemTypeRecognizer";
     process := fun _ => Returned (ObjOther VNone);
     should_activate := fun _ => Returned true;
     validate_context := default_validate_context |}.

(** ** The validator's categories, stated on the text

    What the four checks of the validator mean, independently of how
    [validate] computes them. *)

(** Empty or whitespace only. *)
Definition blank (text : pystr) : Prop := Forall (fun c => isspace c = true) text.

(** [m] is one of the last [n] entries of the log. *)
Definition among_last {A} (n : nat) (log : list A) (m : A) : Prop :=
  exists i : nat, (length log - n <= i)%nat /\ log !! i = Some m.

(** The trimmed text is the content of a user-authored message among the
    last three entries of a log of at least three entries. *)
Definition repeats (text : pystr) (context : InterviewContext) : Prop :=
  (3 <= length (conversation_history context))%nat /\
  exists m : Message,
    among_last 3 (conversation_history context) m /\
    role m = py "user" /\ content m = strip text.

(** [kw] occurs in [text] as a contiguous run. *)
Definition occurs_in (kw text : pystr) : Prop :=
  exists pre post : pystr, text = pre ++ kw ++ post.

(** The lowered text contains one of the off-topic keywords. *)
Definition mentions_off_topic (lower : pystr -> pystr) (text : pystr) : Prop :=
  exists kw : pystr, kw ∈ off_topic_keywords /\ occurs_in kw (lower text).

(** The successor along the chain, written as a function for comparison with
    the table. *)
Definition chain_successor (s : Stage) : option Stage :=
  match s with
  | PROBLEM_CLARIFICATION => Some THOUGHT_ARTICULATION
  | THOUGHT_ARTICULATION => Some COMPLEXITY_ANALYSIS
  | COMPLEXITY_ANALYSIS => Some PSEUDOCODE_DESIGN
  | PSEUDOCODE_DESIGN => Some EDGE_CASE_CHECK
  | EDGE_CASE_CHECK => Some FOLLOW_UP
  | FOLLOW_UP => Some PATTERN_SUMMARY
  | PATTERN_SUMMARY => None
  end.

(** A computation that leaves the session object as it found it, whatever
    else it does to the world. *)
Definition preserves_session {A} (c : M A) : Prop :=
  forall w : World, session (snd (c w)) = session w.

(** ** The keyword sets of the detectors, by name *)

Definition skip_keywords : list pystr :=
  [ py "skip"; [36339; 36807]; [19979; 19968; 20010]; py "next"; py "pass" ].

Definition frustration_keywords : list pystr :=
  [ py "too hard"; [22826; 38590]; py "give up"; [25918; 24323];
    py "don't know"; [19981; 20250]; py "can't"; [19981; 25026] ].

Definition answer_keywords : list pystr :=
  [ py "give me the answer"; py "tell me the answer";
    [30452; 25509; 21578; 35785; 25105]; py "what's the solution";
    [31572; 26696; 26159; 20160; 20040]; py "just show me" ].

(** ** The module classes of module_interface.py

    The four interface classes fix a name and the stages they declare;
    [process] and [should_activate] are left abstract by them. *)

Inductive ModuleClass : Type :=
  | ProblemTypeRecognizer
  | GuidedThoughtGenerator
  | CodeEdgeCaseReviewer
  | FollowUpGenerator.

(** The name each class passes to [ModuleInterface.__init__]. *)
Definition class_module_name (c : ModuleClass) : pystr :=
  match c with
  | ProblemTypeRecognizer => py "ProblemTypeRecognizer"
  | GuidedThoughtGenerator => py "GuidedThoughtGenerator"
  | CodeEdgeCaseReviewer => py "CodeEdgeCaseReviewer"
  | FollowUpGenerator => py "FollowUpGenerator"
  end.

Definition _get_activated_stages (c : ModuleClass) : list Stage :=
  match c with
  | ProblemTypeRecognizer => [PROBLEM_CLARIFICATION]
  | GuidedThoughtGenerator => [THOUGHT_ARTICULATION; COMPLEXITY_ANALYSIS]
  | CodeEdgeCaseReviewer => [PSEUDOCODE_DESIGN; EDGE_CASE_CHECK]
  | FollowUpGenerator => [FOLLOW_UP]
  end.

Definition all_module_classes : list ModuleClass :=
  [ProblemTypeRecognizer; GuidedThoughtGenerator; CodeEdgeCaseReviewer;
   FollowUpGenerator].

(** ** SimpleRecognizer of examples.py *)

Section SimpleRecognizer.

Variable lower : pystr -> pystr.

(** The branches of [process]: pattern, complexity and hint for a lowered
    problem text. *)
Definition SimpleRecognizer_analysis (problem : pystr) : pystr * pystr * pystr :=
  if str_contains (py "two sum") problem || str_contains (py "add up to") problem
  then
    (py "Hash Table / Two Pointer",
     py "O(n) time, O(n) space with hash table",
     py "Think about: if you've seen a number before, how would you remember it?")
  else if str_contains (py "sorted array") problem then
    (py "Binary Search / Two Pointer",
     py "O(log n) for binary search",
     py "The array is sorted - how can we take advantage of that?")
  else
    (py "General Problem Solving",
     py "Start with brute force, then optimize",
     py "Let's start by understanding what we need to do.").

Definition SimpleRecognizer_process (context : InterviewContext)
    : Outcome PyObject :=
  let problem := lower (problem_text context) in
  let '(pattern, complexity, hint) := SimpleRecognizer_analysis problem in
  match
    create_success_response
      (py "I notice this looks like a **" ++ pattern ++ py "** problem. " ++ hint)
      (Some THOUGHT_ARTICULATION)
      (<[ py "identified_pattern" := VStr pattern ]>
         {[ py "complexity_expectation" := VStr complexity ]})
  with
  | Returned r => Returned (ObjModuleResponse r)
  | Raised e => Raised e
  end.

Definition SimpleRecognizer_should_activate (context : InterviewContext)
    : Outcome bool :=
  Returned (bool_decide (current_stage context = PROBLEM_CLARIFICATION)).

(** [bool(context.problem_text and context.problem_text.strip())] *)
Definition SimpleRecognizer_validate_context (context : InterviewContext)
    : Outcome bool :=
  Returned (negb (bool_decide (problem_text context = []))
            && negb (bool_decide (strip (problem_text context) = []))).

Definition SimpleRecognizer : ModuleInterface :=
  {| module_name := class_module_name ProblemTypeRecognizer;
     process := SimpleRecognizer_process;
     should_activate := SimpleRecognizer_should_activate;
     validate_context := SimpleRecognizer_validate_context |}.

End SimpleRecognizer.

(** ** More ways to read a trace, a response and a run *)

Definition is_validate_call (ev : Event) : bool :=
  match ev with
  | EvValidateContext _ => true
  | _ => false
  end.

Definition validate_calls (t : list Event) : nat :=
  length (List.filter is_validate_call t).

Arguments validate_calls : simpl never.

(** The invariant [__post_init__] checks. *)
Definition well_formed (r : ModuleResponse) : Prop :=
  (success r = true -> assistant_message r <> []) /\
  (success r = false ->
   exists m : pystr, error_message r = Some m /\ m <> []).

(** The three [except] clauses of [safe_module_call] as one function of the
    exception caught; what no clause matches is raised again. *)
Definition except_clauses (module : ModuleInterface) (e : PyExc)
    : M (option ModuleResponse) :=
  match e with
  | LLMCallException _ _ => handle_llm_failure e 0 3
  | StateInconsistencyException message _ =>
      logger LOG_ERROR (py "State inconsistency: " ++ message);;
      r ← lift (create_error_response message ERROR);
      mret (Some r)
  | NonException _ => raise e
  | _ =>
      logger LOG_CRITICAL
        (py "Unexpected exception in " ++ module_name module ++ py ": "
         ++ exc_str e);;
      r ← lift (create_error_response (py "Unexpected error: " ++ exc_str e)
                  CRITICAL);
      mret (Some r)
  end.

(** A computation that calls neither method of a module. *)
Definition calls_nothing {A} (c : M A) : Prop :=
  forall w : World,
    process_calls (trace (snd (c w))) = process_calls (trace w) /\
    validate_calls (trace (snd (c w))) = validate_calls (trace w).




(** More sessions and modules used as examples. *)

Definition blank_problem_session : InterviewContext :=
  {| session_id := py "test_session"; problem_text := py "   ";
     problem_metadata := ∅; current_stage := PROBLEM_CLARIFICATION;
     stage_history := []; stage_start_time := 0%Z;
     conversation_history := []; current_user_input := [];
     identified_pattern := None; complexity_expectation := None;
     user_approach := None; pseudocode := None; detected_issues := [];
     consecutive_invalid_inputs := 0%Z; skip_requested := false;
     skipped_stages := []; frustration_detected := false;
     answer_requests := 0%Z; metadata := ∅; user_profile := None |}.

Definition blank_problem_world : World :=
  {| session := blank_problem_session; trace := [];
     entropy := fun n => n; draws := 0; clock := fun _ => 0%Z; ticks := 0 |}.

(** A module whose [process] reports a state inconsistency with [message]. *)
Definition inconsistent_module (message : pystr) : ModuleInterface :=
  {| module_name := class_module_name CodeEdgeCaseReviewer;
     process := fun _ => Raised (StateInconsistencyException message ERROR);
     should_activate := fun _ => Returned true;
     validate_context := default_validate_context |}.

(** A module whose [process] fails with some other exception. *)
Definition crashing_module : ModuleInterface :=
  {| module_name := class_module_name FollowUpGenerator;
     process := fun _ => Raised (OtherException (py "division by zero"));
     should_activate := fun _ => Returned true;
     validate_context := default_validate_context |}.

(** * Properties *)

(** ** The stage machine *)

Lemma elem_of_CRITICAL_STAGES (s : Stage) :
  s ∈ CRITICAL_STAGES <->
  s = THOUGHT_ARTICULATION \/ s = PSEUDOCODE_DESIGN \/ s = EDGE_CASE_CHECK.
Proof.
  unfold CRITICAL_STAGES. rewrite !elem_of_union, !elem_of_singleton. tauto.
Qed.

Lemma elem_of_SKIPPABLE_STAGES (s : Stage) :
  s ∈ SKIPPABLE_STAGES <-> s = COMPLEXITY_ANALYSIS \/ s = PATTERN_SUMMARY.
Proof.
  unfold SKIPPABLE_STAGES. rewrite elem_of_union, !elem_of_singleton. tauto.
Qed.

Lemma CRITICAL_SKIPPABLE_disjoint : CRITICAL_STAGES ## SKIPPABLE_STAGES.
Proof.
  intros s Hc Hs. apply elem_of_CRITICAL_STAGES in Hc.
  apply elem_of_SKIPPABLE_STAGES in Hs.
  destruct Hc as [-> | [-> | ->]]; destruct Hs; discriminate.
Qed.

Lemma elem_of_all_stages (s : Stage) : s ∈ all_stages.
Proof. unfold all_stages. rewrite !elem_of_cons. destruct s; tauto. Qed.

Lemma STAGE_TRANSITION_RULES_lookup (s : Stage) :
  STAGE_TRANSITION_RULES !! s = Some (chain_successor s).
Proof. by destruct s. Qed.

(** C3: the transition table has an entry for each of the seven stages and
    for no other key; looking a stage up gives the next stage of the chain
    clarification, articulation, complexity, pseudocode, edge-case, follow-up,
    summary, which is the one and only successor of every stage but the
    summary stage, and gives none for the summary stage. *)
Theorem stage_transition_table_total :
  (forall s : Stage, is_Some (STAGE_TRANSITION_RULES !! s)) /\
  size STAGE_TRANSITION_RULES = 7%nat /\
  (forall s : Stage, _get_next_stage s = chain_successor s) /\
  (forall s : Stage, s <> PATTERN_SUMMARY ->
     exists t : Stage, _get_next_stage s = Some t /\
       forall t' : Stage, _get_next_stage s = Some t' -> t' = t) /\
  _get_next_stage PATTERN_SUMMARY = None.
Proof.
  split; [| split; [| split; [| split]]].
  - intros s. rewrite STAGE_TRANSITION_RULES_lookup. by eexists.
  - by vm_compute.
  - intros s. unfold _get_next_stage, dict_get_opt.
    by rewrite STAGE_TRANSITION_RULES_lookup.
  - intros s Hs. unfold _get_next_stage, dict_get_opt.
    rewrite STAGE_TRANSITION_RULES_lookup.
    destruct s; try congruence; eexists; (split; [reflexivity | by intros ? [= <-]]).
  - reflexivity.
Qed.

(** ** Recovery handlers *)

(** Running a handler on a world whose fields are known. *)
Ltac expose_world w :=
  let c := fresh "c" in
  destruct w as [c ? ? ? ? ?]; destruct c; simpl in *.

(** C5: on a session whose current stage is skippable (complexity analysis
    or pattern summary), a skip request is answered by a success response
    whose suggested next stage is the transition table's successor of that
    stage, and whose update instructions are the single entry that sets
    skipped-stages to the old list followed by that one stage. *)
Theorem skip_request_on_skippable_stage (w : World) :
  current_stage (session w) ∈ SKIPPABLE_STAGES ->
  exists r : ModuleResponse,
    fst (handle_skip_request w) = Returned r /\
    success r = true /\
    next_stage r = _get_next_stage (current_stage (session w)) /\
    context_updates r =
      {[ py "skipped_stages" :=
           VStages (skipped_stages (session w) ++ [current_stage (session w)]) ]}.
Proof.
  intros Hs. apply elem_of_SKIPPABLE_STAGES in Hs.
  expose_world w.
  destruct Hs as [-> | ->]; eexists; (split; [by vm_compute |]);
    repeat split; by vm_compute.
Qed.

Lemma skip_request_on_skippable_stage_witness :
  exists r : ModuleResponse,
    fst (handle_skip_request (sample_world COMPLEXITY_ANALYSIS 0)) = Returned r /\
    success r = true /\
    next_stage r = Some PSEUDOCODE_DESIGN /\
    context_updates r = {[ py "skipped_stages" := VStages [COMPLEXITY_ANALYSIS] ]}.
Proof.
  apply (skip_request_on_skippable_stage (sample_world COMPLEXITY_ANALYSIS 0)).
  apply elem_of_SKIPPABLE_STAGES. left. reflexivity.
Defined.

(** C6: on a session whose current stage is critical (thought articulation,
    pseudocode design or edge-case check), a skip request is answered by a
    success response that suggests no next stage and whose update
    instructions set the skip-requested flag, and nothing else. *)
Theorem skip_request_on_critical_stage (w : World) :
  current_stage (session w) ∈ CRITICAL_STAGES ->
  exists r : ModuleResponse,
    fst (handle_skip_request w) = Returned r /\
    success r = true /\
    next_stage r = None /\
    context_updates r = {[ py "skip_requested" := VBool true ]}.
Proof.
  intros Hs. apply elem_of_CRITICAL_STAGES in Hs.
  expose_world w.
  destruct Hs as [-> | [-> | ->]]; eexists; (split; [by vm_compute |]);
    repeat split; by vm_compute.
Qed.

Lemma skip_request_on_critical_stage_witness :
  exists r : ModuleResponse,
    fst (handle_skip_request (sample_world PSEUDOCODE_DESIGN 0)) = Returned r /\
    success r = true /\
    next_stage r = None /\
    context_updates r = {[ py "skip_requested" := VBool true ]}.
Proof.
  apply (skip_request_on_critical_stage (sample_world PSEUDOCODE_DESIGN 0)).
  apply elem_of_CRITICAL_STAGES. right. left. reflexivity.
Defined.

(** C7: with the consecutive-invalid-input counter at 2, an invalid input
    (of any category) triggers help mode: a success response carrying the
    detailed-hint message, whose update instructions reset the counter to 0
    and mark help mode; with the counter at 1 help mode is not triggered: the
    message is not the detailed hint and the update instructions are the
    single entry that sets the counter to 2.  Neither response suggests a
    next stage. *)
Theorem invalid_input_help_mode_threshold (w : World) (input_type : pystr) :
  (consecutive_invalid_inputs (session w) = 2%Z ->
   exists r : ModuleResponse,
     fst (handle_invalid_input input_type w) = Returned r /\
     success r = true /\
     assistant_message r = help_mode_message /\
     next_stage r = None /\
     context_updates r !! py "consecutive_invalid_inputs" = Some (VInt 0) /\
     context_updates r !! py "help_mode_triggered" = Some (VBool true)) /\
  (consecutive_invalid_inputs (session w) = 1%Z ->
   exists r : ModuleResponse,
     fst (handle_invalid_input input_type w) = Returned r /\
     success r = true /\
     assistant_message r <> help_mode_message /\
     next_stage r = None /\
     context_updates r = {[ py "consecutive_invalid_inputs" := VInt 2 ]}).
Proof.
  split; intros Hc; expose_world w; subst.
  - eexists. split; [by vm_compute |]. repeat split; by vm_compute.
  - unfold handle_invalid_input, mbind, M_bind, get_context, dict_item; simpl.
    replace (invalid_input_templates !! py "empty")
      with (Some (py "I didn't catch that. Could you share your thoughts?"))
      by (by vm_compute).
    simpl. unfold dict_get, lift, create_success_response, ModuleResponse_init.
    destruct (invalid_input_templates !! input_type) as [v |] eqn:Hv.
    + assert (Hv' : v <> [] /\ v <> help_mode_message).
      { unfold invalid_input_templates in Hv.
        repeat (apply lookup_insert_Some in Hv as [[<- <-] | [_ Hv]];
                [split; by vm_compute |]).
        by rewrite lookup_empty in Hv. }
      destruct Hv' as [Hv1 Hv2].
      rewrite (bool_decide_eq_false_2 _ Hv1). simpl.
      eexists. split; [reflexivity |]. repeat split; by simpl.
    + eexists. split; [by vm_compute |]. repeat split; by vm_compute.
Qed.

Lemma invalid_input_help_mode_threshold_witness :
  (exists r : ModuleResponse,
     fst (handle_invalid_input (py "too_short")
            (sample_world PROBLEM_CLARIFICATION 2)) = Returned r /\
     success r = true /\
     assistant_message r = help_mode_message /\
     next_stage r = None /\
     context_updates r !! py "consecutive_invalid_inputs" = Some (VInt 0) /\
     context_updates r !! py "help_mode_triggered" = Some (VBool true)) /\
  (exists r : ModuleResponse,
     fst (handle_invalid_input (py "too_short")
            (sample_world PROBLEM_CLARIFICATION 1)) = Returned r /\
     success r = true /\
     assistant_message r <> help_mode_message /\
     next_stage r = None /\
     context_updates r = {[ py "consecutive_invalid_inputs" := VInt 2 ]}).
Proof.
  split.
  - apply (proj1 (invalid_input_help_mode_threshold
                    (sample_world PROBLEM_CLARIFICATION 2) (py "too_short"))).
    reflexivity.
  - apply (proj2 (invalid_input_help_mode_threshold
                    (sample_world PROBLEM_CLARIFICATION 1) (py "too_short"))).
    reflexivity.
Defined.

(** [random.choice] on a non-empty sequence returns one of its elements and
    costs one draw. *)
Lemma random_choice_elem {A} (seq : list A) (w : World) :
  seq <> [] ->
  exists x : A, x ∈ seq /\ random_choice seq w = (Returned x, with_draw w).
Proof.
  intros Hne. unfold random_choice.
  assert (Hlt : (entropy w (draws w) mod length seq < length seq)%nat).
  { apply Nat.mod_upper_bound. destruct seq; [done | simpl; lia]. }
  apply lookup_lt_is_Some_2 in Hlt as [x Hx]. rewrite Hx.
  exists x. split; [| done]. by eapply list_elem_of_lookup_2.
Qed.

Lemma handle_frustration_run (w : World) :
  handle_frustration w =
  match random_choice encouragements
          (with_event
             (EvLog LOG_INFO
                (py "Frustration detected in session " ++ session_id (session w)))
             w)
  with
  | (Returned e, w') =>
      lift (create_success_response (e ++ hint_offer) None
              (<[ py "frustration_detected" := VBool true ]>
                 {[ py "hint_level" := VStr (py "detailed") ]})) w'
  | (Raised x, w') => (Raised x, w')
  end.
Proof. reflexivity. Qed.

(** C8: whatever the session and whatever the generator draws, handling
    frustration returns a success response that suggests no next stage, whose
    update instructions set frustration-detected to true and the hint level
    to "detailed" and nothing else, and whose message is one of the three
    fixed encouragement texts followed by the fixed hint offer. *)
Theorem frustration_response (w : World) :
  exists (r : ModuleResponse) (e : pystr),
    fst (handle_frustration w) = Returned r /\
    e ∈ encouragements /\
    length encouragements = 3%nat /\
    assistant_message r = e ++ hint_offer /\
    success r = true /\
    next_stage r = None /\
    context_updates r =
      <[ py "frustration_detected" := VBool true ]>
        {[ py "hint_level" := VStr (py "detailed") ]}.
Proof.
  rewrite handle_frustration_run.
  destruct (random_choice_elem encouragements
              (with_event
                 (EvLog LOG_INFO
                    (py "Frustration detected in session "
                     ++ session_id (session w))) w))
    as (e & He & ->); [discriminate |].
  assert (Hcases := He). unfold encouragements in Hcases.
  rewrite !elem_of_cons in Hcases.
  destruct Hcases as [-> | [-> | [-> | Hnil]]]; [| | | by apply elem_of_nil in Hnil];
    eexists; eexists; (split; [by vm_compute |]); (split; [exact He |]);
    repeat split; by vm_compute.
Qed.

(** Each of the three texts is the one chosen for some draw. *)
Lemma frustration_every_text_possible (e : pystr) :
  e ∈ encouragements ->
  exists (w : World) (r : ModuleResponse),
    fst (handle_frustration w) = Returned r /\ assistant_message r = e ++ hint_offer.
Proof.
  unfold encouragements. rewrite !elem_of_cons.
  intros [-> | [-> | [-> | H]]]; [| | | by apply elem_of_nil in H].
  - exists (sample_world FOLLOW_UP 0). eexists. split; by vm_compute.
  - exists (with_draw (sample_world FOLLOW_UP 0)). eexists. split; by vm_compute.
  - exists (with_draw (with_draw (sample_world FOLLOW_UP 0))). eexists.
    split; by vm_compute.
Qed.

(** ** The session is only read *)

Lemma preserves_ret {A} (a : A) : preserves_session (mret a).
Proof. by intros w. Qed.

Lemma preserves_raise {A} (e : PyExc) : preserves_session (@raise A e).
Proof. by intros w. Qed.

Lemma preserves_lift {A} (o : Outcome A) : preserves_session (lift o).
Proof. by intros w. Qed.

Lemma preserves_get_context : preserves_session get_context.
Proof. by intros w. Qed.

Lemma preserves_emit (ev : Event) : preserves_session (emit ev).
Proof. by intros w. Qed.

Lemma preserves_logger (lvl : LogLevel) (msg : pystr) :
  preserves_session (logger lvl msg).
Proof. by intros w. Qed.

Lemma preserves_sleep (n : N) : preserves_session (sleep n).
Proof. by intros w. Qed.

Lemma preserves_random_choice {A} (seq : list A) :
  preserves_session (random_choice seq).
Proof. intros w. unfold random_choice. by destruct (seq !! _). Qed.

Lemma preserves_bind {A B} (c : M A) (k : A -> M B) :
  preserves_session c -> (forall a, preserves_session (k a)) ->
  preserves_session (c ≫= k).
Proof.
  intros Hc Hk w. unfold mbind, M_bind. specialize (Hc w).
  destruct (c w) as [[a | e] w']; simpl in *; [by rewrite Hk | done].
Qed.

Lemma preserves_try_except {A} (body : M A) (handler : PyExc -> option (M A)) :
  preserves_session body ->
  (forall e h, handler e = Some h -> preserves_session h) ->
  preserves_session (try_except body handler).
Proof.
  intros Hb Hh w. unfold try_except. specialize (Hb w).
  destruct (body w) as [[a | e] w']; simpl in *; [done |].
  destruct (handler e) as [h |] eqn:He; [| done].
  by rewrite (Hh e h He).
Qed.

Lemma preserves_dict_item {V} (d : gmap pystr V) (k : pystr) :
  preserves_session (dict_item d k).
Proof. unfold dict_item. destruct (d !! k); by intros w. Qed.

Create HintDb frame.
#[local] Hint Resolve preserves_ret preserves_raise preserves_lift
  preserves_get_context preserves_emit preserves_logger preserves_sleep
  preserves_random_choice preserves_dict_item : frame.

Ltac frame :=
  repeat first
    [ apply preserves_bind; [| intros ?]
    | progress auto with frame
    | match goal with
      | |- preserves_session (if ?b then _ else _) => destruct b
      | |- preserves_session (match ?x with _ => _ end) => destruct x
      end ].

Lemma preserves_handle_skip_request : preserves_session handle_skip_request.
Proof. unfold handle_skip_request. frame. Qed.

Lemma preserves_handle_invalid_input (input_type : pystr) :
  preserves_session (handle_invalid_input input_type).
Proof. unfold handle_invalid_input, _trigger_help_mode. frame. Qed.

Lemma preserves_handle_frustration : preserves_session handle_frustration.
Proof. unfold handle_frustration. frame. Qed.

Lemma preserves_handle_llm_failure (error : PyExc) (retry_count max_retries : N) :
  preserves_session (handle_llm_failure error retry_count max_retries).
Proof. unfold handle_llm_failure. frame. Qed.

(** The contrast: [transition_to] does write to the session. *)
Lemma transition_to_writes_session (next : Stage) (w : World) :
  let c' := session (snd (transition_to next w)) in
  current_stage c' = next /\
  stage_history c' = stage_history (session w) ++ [current_stage (session w)].
Proof. by split. Qed.

(** C9: the four recovery operations (skip, invalid input, frustration,
    generation failure) leave the session object they are given exactly as
    it was, every field of it; what they have to say about the session is in
    the update instructions of the response they return. *)
Theorem handlers_leave_session_unchanged
    (w : World) (input_type : pystr) (error : PyExc)
    (retry_count max_retries : N) :
  session (snd (handle_skip_request w)) = session w /\
  session (snd (handle_invalid_input input_type w)) = session w /\
  session (snd (handle_frustration w)) = session w /\
  session (snd (handle_llm_failure error retry_count max_retries w)) = session w.
Proof.
  repeat split.
  - apply preserves_handle_skip_request.
  - apply preserves_handle_invalid_input.
  - apply preserves_handle_frustration.
  - apply preserves_handle_llm_failure.
Qed.

(** ** The safe invocation wrapper *)

Lemma sleeps_app (t u : list Event) : sleeps (t ++ u) = sleeps t ++ sleeps u.
Proof. unfold sleeps. apply omap_app. Qed.

Lemma process_calls_app (t u : list Event) :
  process_calls (t ++ u) = (process_calls t + process_calls u)%nat.
Proof. unfold process_calls. by rewrite List.filter_app, length_app. Qed.

Lemma process_calls_snoc (t : list Event) (ev : Event) :
  process_calls (t ++ [ev])
  = (process_calls t + (if is_process_call ev then 1 else 0))%nat.
Proof.
  rewrite process_calls_app. unfold process_calls at 2. simpl.
  by destruct (is_process_call ev).
Qed.

Lemma sleeps_snoc (t : list Event) (ev : Event) :
  sleeps (t ++ [ev])
  = sleeps t ++ match ev with EvSleep n => [n] | _ => [] end.
Proof. rewrite sleeps_app. by destruct ev. Qed.

(** What the wrapper does up to the outcome of [process], when the
    precondition check passes. *)
Lemma safe_module_call_run (module : ModuleInterface) (w : World) :
  validate_context module (session w) = Returned true ->
  safe_module_call module w =
  let w2 := with_event (EvProcess (module_name module))
              (with_event (EvValidateContext (module_name module)) w) in
  match process module (session w) with
  | Returned (ObjModuleResponse r) => (Returned (Some r), w2)
  | Returned (ObjOther _) =>
      (logger LOG_CRITICAL
         (py "Unexpected exception in " ++ module_name module ++ py ": "
          ++ (module_name module ++ py " returned invalid response type"));;
       r ← lift (create_error_response
                   (py "Unexpected error: "
                    ++ (module_name module ++ py " returned invalid response type"))
                   CRITICAL);
       mret (Some r)) w2
  | Raised (LLMCallException m l) =>
      handle_llm_failure (LLMCallException m l) 0 3 w2
  | Raised (StateInconsistencyException m l) =>
      (logger LOG_ERROR (py "State inconsistency: " ++ m);;
       r ← lift (create_error_response m ERROR);
       mret (Some r)) w2
  | Raised (NonException t) => (Raised (NonException t), w2)
  | Raised e =>
      (logger LOG_CRITICAL
         (py "Unexpected exception in " ++ module_name module ++ py ": "
          ++ exc_str e);;
       r ← lift (create_error_response (py "Unexpected error: " ++ exc_str e)
                   CRITICAL);
       mret (Some r)) w2
  end.
Proof.
  intros Hv.
  unfold safe_module_call, try_except, call_validate_context, call_process.
  unfold mbind at 1 2 3 4 5 6, M_bind, get_context, emit, lift.
  cbv beta iota. rewrite Hv. cbv beta iota.
  simpl negb. cbv beta iota. simpl session.
  destruct (process module (session w)) as [[r | v] | []]; reflexivity.
Qed.

(** The handler while retries remain: it logs, waits [2 ^ retry_count] and
    signals retry. *)
Lemma handle_llm_failure_retry
    (error : PyExc) (retry_count max_retries : N) (w : World) :
  retry_count < max_retries ->
  handle_llm_failure error retry_count max_retries w =
  (Returned None,
   with_event (EvSleep (2 ^ retry_count))
     (with_event
        (EvLog LOG_WARNING
           (py "LLM call failed, retrying in " ++ str_of_N (2 ^ retry_count)
            ++ py "s (attempt " ++ str_of_N (retry_count + 1) ++ py "/"
            ++ str_of_N max_retries ++ py ")")) w)).
Proof.
  intros Hlt. unfold handle_llm_failure.
  apply N.ltb_lt in Hlt. rewrite Hlt. reflexivity.
Qed.

(** The fallback templates are never empty, so building the fallback
    response cannot fail. *)
Lemma _get_fallback_template_nonempty (s : Stage) : _get_fallback_template s <> [].
Proof. destruct s; by vm_compute. Qed.

(** The handler once retries are exhausted: it logs and returns the
    fallback response of the current stage, without waiting. *)
Lemma handle_llm_failure_exhausted
    (error : PyExc) (retry_count max_retries : N) (w : World) :
  max_retries <= retry_count ->
  handle_llm_failure error retry_count max_retries w =
  (Returned
     (Some {| success := true;
              assistant_message := _get_fallback_template (current_stage (session w));
              next_stage := None;
              context_updates := {[ py "fallback_used" := VBool true ]};
              response_metadata := ∅;
              error_message := None;
              exception_level := None |}),
   with_event
     (EvLog LOG_ERROR
        (py "LLM call failed after " ++ str_of_N max_retries ++ py " retries: "
         ++ exc_str error)) w).
Proof.
  intros Hle. unfold handle_llm_failure.
  apply N.ltb_ge in Hle. rewrite Hle.
  unfold mbind, M_bind, logger, emit, get_context, lift,
    create_success_response, ModuleResponse_init.
  cbv beta iota. simpl session. simpl andb.
  rewrite (bool_decide_eq_false_2 _ (_get_fallback_template_nonempty _)).
  reflexivity.
Qed.

(** One wrapped call of a module whose [process] raises a generation
    failure, as an equation on the run. *)
Lemma safe_module_call_run_failure
    (module : ModuleInterface) (w : World) (msg : pystr) (lvl : ExceptionLevel) :
  validate_context module (session w) = Returned true ->
  process module (session w) = Raised (LLMCallException msg lvl) ->
  exists w' : World,
    safe_module_call module w = (Returned None, w') /\
    process_calls (trace w') = S (process_calls (trace w)) /\
    sleeps (trace w') = sleeps (trace w) ++ [1] /\
    session w' = session w.
Proof.
  intros Hv Hp.
  rewrite (safe_module_call_run _ _ Hv), Hp. cbv zeta.
  rewrite handle_llm_failure_retry by lia.
  eexists. split; [reflexivity |].
  cbn. rewrite !sleeps_snoc, !process_calls_snoc, !app_nil_r. cbn.
  repeat split; lia.
Qed.

(** C10: when the precondition check passes and [process] raises a
    generation failure, one call of the wrapper calls [process] once, hands
    the failure to the handler with retry count 0 and maximum 3, waits one
    time unit, and returns the retry signal [None], not a response; the
    session is untouched. *)
Theorem safe_module_call_generation_failure
    (module : ModuleInterface) (w : World) (msg : pystr) (lvl : ExceptionLevel) :
  validate_context module (session w) = Returned true ->
  process module (session w) = Raised (LLMCallException msg lvl) ->
  safe_module_call module w =
    handle_llm_failure (LLMCallException msg lvl) 0 3
      (with_event (EvProcess (module_name module))
         (with_event (EvValidateContext (module_name module)) w)) /\
  fst (safe_module_call module w) = Returned None /\
  process_calls (trace (snd (safe_module_call module w)))
    = S (process_calls (trace w)) /\
  sleeps (trace (snd (safe_module_call module w))) = sleeps (trace w) ++ [1] /\
  session (snd (safe_module_call module w)) = session w.
Proof.
  intros Hv Hp. split.
  - by rewrite (safe_module_call_run _ _ Hv), Hp.
  - destruct (safe_module_call_run_failure module w msg lvl Hv Hp)
      as (w' & -> & Hcalls & Hsleeps & Hsession).
    by simpl.
Qed.

Lemma safe_module_call_generation_failure_witness :
  fst (safe_module_call failing_module (sample_world THOUGHT_ARTICULATION 0))
    = Returned None /\
  process_calls
    (trace (snd (safe_module_call failing_module
                   (sample_world THOUGHT_ARTICULATION 0)))) = 1%nat.
Proof.
  destruct (safe_module_call_generation_failure failing_module
              (sample_world THOUGHT_ARTICULATION 0)
              (py "upstream unavailable") ERROR eq_refl eq_refl)
    as (_ & Hres & Hcalls & _).
  split; [exact Hres | exact Hcalls].
Defined.

(** C2, as the code has it: when the precondition check passes and
    [process] returns something that is not a ModuleResponse, the wrapper
    calls [process] once and returns a failure response of its own: success
    false, severity critical (the classification of unexpected failures, not
    the error severity of state inconsistencies), the error message
    "Unexpected error: <module name> returned invalid response type", no next
    stage and no update instructions.  The object [process] returned is not
    passed on. *)
Theorem safe_module_call_malformed_result
    (module : ModuleInterface) (w : World) (v : PyVal) :
  validate_context module (session w) = Returned true ->
  process module (session w) = Returned (ObjOther v) ->
  exists r : ModuleResponse,
    fst (safe_module_call module w) = Returned (Some r) /\
    success r = false /\
    exception_level r = Some CRITICAL /\
    error_message r =
      Some (py "Unexpected error: " ++ module_name module
            ++ py " returned invalid response type") /\
    next_stage r = None /\
    context_updates r = ∅ /\
    process_calls (trace (snd (safe_module_call module w)))
      = S (process_calls (trace w)) /\
    session (snd (safe_module_call module w)) = session w.
Proof.
  intros Hv Hp.
  rewrite (safe_module_call_run _ _ Hv), Hp. cbv zeta.
  unfold mbind, M_bind, logger, emit, lift, create_error_response,
    ModuleResponse_init.
  cbv beta iota. simpl andb. cbv beta iota.
  eexists. split; [reflexivity |].
  cbn. rewrite !process_calls_snoc. cbn.
  repeat split; lia.
Qed.

Lemma safe_module_call_malformed_result_witness :
  exists r : ModuleResponse,
    fst (safe_module_call malformed_module (sample_world PROBLEM_CLARIFICATION 0))
      = Returned (Some r) /\
    success r = false /\
    exception_level r = Some CRITICAL.
Proof.
  destruct (safe_module_call_malformed_result malformed_module
              (sample_world PROBLEM_CLARIFICATION 0) VNone eq_refl eq_refl)
    as (r & Hres & Hs & Hl & _).
  exists r. split; [exact Hres | split; [exact Hs | exact Hl]].
Defined.

(** C2, as stated, fails: a module whose [process] returns [None] gets a
    critical-severity response from the wrapper, not the error severity of a
    state inconsistency. *)
Lemma malformed_result_is_not_state_inconsistency :
  validate_context malformed_module
    (session (sample_world PROBLEM_CLARIFICATION 0)) = Returned true /\
  process malformed_module
    (session (sample_world PROBLEM_CLARIFICATION 0)) = Returned (ObjOther VNone) /\
  ~ (exists r : ModuleResponse,
       fst (safe_module_call malformed_module
              (sample_world PROBLEM_CLARIFICATION 0)) = Returned (Some r) /\
       success r = false /\
       exception_level r = Some ERROR).
Proof.
  split; [reflexivity | split; [reflexivity |]].
  intros (r & Hres & _ & Hlvl).
  vm_compute in Hres. injection Hres as <-. discriminate Hlvl.
Qed.

Lemma safe_module_call_run_rejected (module : ModuleInterface) (w : World) :
  validate_context module (session w) = Returned false ->
  safe_module_call module w =
  (logger LOG_ERROR
     (py "State inconsistency: "
      ++ (py "Context validation failed for " ++ module_name module));;
   r ← lift (create_error_response
               (py "Context validation failed for " ++ module_name module) ERROR);
   mret (Some r))
    (with_event (EvValidateContext (module_name module)) w).
Proof.
  intros Hv.
  unfold safe_module_call, try_except, call_validate_context.
  unfold mbind at 1 2 3, M_bind, get_context, emit, lift.
  cbv beta iota. rewrite Hv. reflexivity.
Qed.

(** The sibling check: a failed precondition is reported as a state
    inconsistency, at error severity, and [process] is not called. *)
Lemma safe_module_call_precondition_failed (module : ModuleInterface) (w : World) :
  validate_context module (session w) = Returned false ->
  exists r : ModuleResponse,
    fst (safe_module_call module w) = Returned (Some r) /\
    success r = false /\
    exception_level r = Some ERROR /\
    error_message r =
      Some (py "Context validation failed for " ++ module_name module) /\
    process_calls (trace (snd (safe_module_call module w)))
      = process_calls (trace w).
Proof.
  intros Hv. rewrite (safe_module_call_run_rejected _ _ Hv).
  unfold mbind, M_bind, logger, emit, lift, create_error_response,
    ModuleResponse_init.
  cbv beta iota. simpl andb. cbv beta iota.
  eexists. split; [reflexivity |].
  cbn. rewrite !process_calls_snoc. cbn.
  repeat split; lia.
Qed.

(** ** Generation failure: retry signal and fallback *)

(** C1, as the code has it: with a maximum of 3 retries, the failure handler
    called with retry counts 0, 1, 2 and 3 in turn waits 1, 2 and 4 time
    units and signals retry on the first three calls, and on the fourth
    returns, without waiting, a success response that carries the fixed
    fallback template of the session's current stage, has fallback_used set
    and suggests no next stage.  The re-attempts are not made by this code:
    the handler only signals them. *)
Theorem llm_failure_retry_schedule (error : PyExc) (w : World) :
  let run :=
    mapM (fun retry_count => handle_llm_failure error retry_count 3)
      [0; 1; 2; 3] w in
  exists r : ModuleResponse,
    fst run = Returned [None; None; None; Some r] /\
    sleeps (trace (snd run)) = sleeps (trace w) ++ [1; 2; 4] /\
    success r = true /\
    assistant_message r = _get_fallback_template (current_stage (session w)) /\
    next_stage r = None /\
    context_updates r = {[ py "fallback_used" := VBool true ]} /\
    session (snd run) = session w.
Proof.
  intros run. remember run as res eqn:Hrun. unfold run in Hrun. clear run.
  cbn [mapM] in Hrun. unfold mbind, M_bind in Hrun.
  do 3 (rewrite handle_llm_failure_retry in Hrun by lia; cbv beta iota in Hrun).
  rewrite handle_llm_failure_exhausted in Hrun by lia.
  cbv beta iota delta [mret M_ret] in Hrun. subst res.
  eexists. split; [reflexivity |].
  cbn. rewrite !sleeps_snoc, !app_nil_r, <- !app_assoc. cbn.
  repeat split; reflexivity.
Qed.

(** C1, as stated, fails: one wrapped call of a module whose generation
    fails each time makes one attempt, waits one time unit and returns the
    retry signal; it does not make four attempts and does not return the
    fallback response. *)
Lemma single_wrapped_call_is_not_retried :
  let run :=
    safe_module_call failing_module (sample_world THOUGHT_ARTICULATION 0) in
  fst run = Returned None /\
  process_calls (trace (snd run)) = 1%nat /\
  sleeps (trace (snd run)) = [1] /\
  ~ (process_calls (trace (snd run)) = 4%nat /\
     sleeps (trace (snd run)) = [1; 2; 4] /\
     exists r : ModuleResponse,
       fst run = Returned (Some r) /\
       assistant_message r = _get_fallback_template THOUGHT_ARTICULATION /\
       context_updates r !! py "fallback_used" = Some (VBool true)).
Proof.
  cbv zeta. split; [by vm_compute |]. split; [by vm_compute |].
  split; [by vm_compute |].
  intros (Hcalls & _). vm_compute in Hcalls. discriminate Hcalls.
Qed.

(** Calling the wrapper again does not help: each call passes retry count 0,
    so [n] calls in a row make [n] attempts, wait one time unit each, and all
    return the retry signal. *)
Lemma repeated_wrapped_calls_never_fall_back
    (module : ModuleInterface) (msg : pystr) (lvl : ExceptionLevel) (n : nat) :
  forall w : World,
    validate_context module (session w) = Returned true ->
    process module (session w) = Raised (LLMCallException msg lvl) ->
    exists w' : World,
      mapM (fun _ : unit => safe_module_call module) (replicate n tt) w
        = (Returned (replicate n None), w') /\
      sleeps (trace w') = sleeps (trace w) ++ replicate n 1 /\
      process_calls (trace w') = (process_calls (trace w) + n)%nat /\
      session w' = session w.
Proof.
  induction n as [| n IH]; intros w Hv Hp.
  - exists w. cbn. rewrite app_nil_r. repeat split; lia.
  - cbn [replicate mapM]. unfold mbind at 1. unfold M_bind at 1.
    destruct (safe_module_call_run_failure module w msg lvl Hv Hp)
      as (w1 & -> & Hcalls & Hsl & Hsess).
    rewrite <- Hsess in Hv, Hp.
    destruct (IH w1 Hv Hp) as (w2 & Hrun & IHsl & IHcalls & IHsess).
    unfold mbind at 1. unfold M_bind at 1. rewrite Hrun.
    exists w2. split; [reflexivity |].
    rewrite IHsl, IHcalls, Hsl, Hcalls, IHsess, Hsess, <- app_assoc. cbn.
    repeat split; lia.
Qed.

(** ** The input validator *)

Lemma lstrip_blank (s : pystr) : lstrip s = [] <-> blank s.
Proof.
  unfold blank. induction s as [| c s IH]; simpl.
  - split; [constructor | done].
  - destruct (isspace c) eqn:Hc.
    + rewrite IH. split; [by constructor | by inversion 1].
    + split; [done |]. inversion 1; congruence.
Qed.

(** What [lstrip] leaves does not begin with a space. *)
Lemma lstrip_head (s : pystr) :
  match lstrip s with
  | [] => True
  | c :: _ => isspace c = false
  end.
Proof.
  induction s as [| c s IH]; simpl; [done |].
  destruct (isspace c) eqn:Hc; [done | by simpl].
Qed.

Lemma blank_rev (s : pystr) : blank (rev s) <-> blank s.
Proof.
  unfold blank. split; intros H.
  - rewrite <- (rev_involutive s). by apply Forall_rev.
  - by apply Forall_rev.
Qed.

Lemma strip_blank (s : pystr) : strip s = [] <-> blank s.
Proof.
  unfold strip, rstrip. split.
  - intros H. apply (f_equal (@rev _)) in H. rewrite rev_involutive in H.
    simpl in H. apply (proj1 (lstrip_blank _)) in H.
    apply (proj1 (blank_rev _)) in H.
    apply lstrip_blank. pose proof (lstrip_head s) as Hh.
    destruct (lstrip s) as [| c r]; [done |].
    unfold blank in H. apply Forall_inv in H. simpl in H. congruence.
  - intros H. apply lstrip_blank in H. by rewrite H.
Qed.

Lemma str_eqb_true (s t : pystr) : str_eqb s t = true <-> s = t.
Proof. unfold str_eqb. apply bool_decide_eq_true. Qed.

Lemma startswith_prefix (p s : pystr) :
  startswith p s = true <-> exists post : pystr, s = p ++ post.
Proof.
  revert s. induction p as [| a p IH]; intros s; simpl.
  - split; [by exists s | done].
  - destruct s as [| b s].
    + split; [done | by intros [post H]].
    + rewrite andb_true_iff, N.eqb_eq, IH. split.
      * intros [-> [post ->]]. by exists post.
      * intros [post [= -> ->]]. split; [done | by exists post].
Qed.

Lemma str_contains_occurs_in (kw s : pystr) :
  str_contains kw s = true <-> occurs_in kw s.
Proof.
  unfold occurs_in. induction s as [| b s IH]; simpl.
  - rewrite orb_false_r, startswith_prefix. split.
    + intros [post H]. by exists [], post.
    + intros (pre & post & H). destruct pre; [by exists post |]. discriminate H.
  - rewrite orb_true_iff, startswith_prefix, IH. split.
    + intros [[post H] | (pre & post & ->)].
      * by exists [], post.
      * by exists (b :: pre), post.
    + intros (pre & post & H). destruct pre as [| c pre].
      * left. by exists post.
      * right. injection H as -> ->. by exists pre, post.
Qed.

Lemma any_keyword_in_exists (keywords : list pystr) (text : pystr) :
  any_keyword_in keywords text = true <->
  exists kw : pystr, kw ∈ keywords /\ occurs_in kw text.
Proof.
  unfold any_keyword_in. rewrite existsb_exists.
  split; intros (kw & Hin & Hkw); exists kw.
  - by rewrite list_elem_of_In, <- str_contains_occurs_in.
  - by rewrite <- list_elem_of_In, str_contains_occurs_in.
Qed.

Lemma list_contains_elem_of (x : pystr) (l : list pystr) :
  list_contains x l = true <-> x ∈ l.
Proof.
  unfold list_contains. rewrite existsb_exists, list_elem_of_In.
  split.
  - intros (y & Hin & Heq). apply str_eqb_true in Heq. by subst.
  - intros Hin. exists x. split; [done | by apply str_eqb_true].
Qed.

Lemma elem_of_slice_last {A} (n : nat) (l : list A) (x : A) :
  x ∈ slice_last n l <-> among_last n l x.
Proof.
  unfold slice_last, among_last. rewrite list_elem_of_lookup. split.
  - intros [i Hi]. rewrite lookup_drop in Hi.
    exists (length l - n + i)%nat. split; [lia | done].
  - intros (i & Hle & Hi). exists (i - (length l - n))%nat.
    rewrite lookup_drop. by replace (length l - n + (i - (length l - n)))%nat
      with i by lia.
Qed.

(** The repeated-input check of [validate] decides [repeats]. *)
Lemma repeated_check (text : pystr) (context : InterviewContext) :
  (3 <=? length (conversation_history context))%nat
  && list_contains (strip text)
       (map content
          (filter (fun msg => role msg = py "user")
             (slice_last 3 (conversation_history context)))) = true
  <-> repeats text context.
Proof.
  unfold repeats.
  rewrite andb_true_iff, Nat.leb_le, list_contains_elem_of, list_elem_of_In,
    in_map_iff.
  split.
  - intros [Hlen (m & Hc & Hin)]. split; [done |]. exists m.
    apply list_elem_of_In, list_elem_of_filter in Hin as [Hr Hin].
    by rewrite <- elem_of_slice_last.
  - intros [Hlen (m & Hlast & Hr & Hc)]. split; [done |]. exists m.
    split; [done |].
    apply list_elem_of_In, list_elem_of_filter. by rewrite elem_of_slice_last.
Qed.

(** C4: the validator classifies a text as follows, each case applying only
    when the earlier ones do not: empty or whitespace only is [empty]; fewer
    than 5 characters after trimming is [too_short]; equal, after trimming,
    to the content of a user-authored message among the last 3 entries of a
    log of at least 3 entries is [repeated]; containing one of the off-topic
    keywords once lowered is [off_topic]; anything else is valid, with no
    category. *)
Theorem validate_classification
    (lower : pystr -> pystr) (user_input : pystr) (context : InterviewContext) :
  (blank user_input ->
   validate lower user_input context = (false, Some (py "empty"))) /\
  (~ blank user_input -> (length (strip user_input) < 5)%nat ->
   validate lower user_input context = (false, Some (py "too_short"))) /\
  (~ blank user_input -> (5 <= length (strip user_input))%nat ->
   repeats user_input context ->
   validate lower user_input context = (false, Some (py "repeated"))) /\
  (~ blank user_input -> (5 <= length (strip user_input))%nat ->
   ~ repeats user_input context -> mentions_off_topic lower user_input ->
   validate lower user_input context = (false, Some (py "off_topic"))) /\
  (~ blank user_input -> (5 <= length (strip user_input))%nat ->
   ~ repeats user_input context -> ~ mentions_off_topic lower user_input ->
   validate lower user_input context = (true, None)).
Proof.
  assert (Hblank : bool_decide (user_input = []) || str_eqb (strip user_input) []
                   = true <-> blank user_input).
  { rewrite orb_true_iff, bool_decide_eq_true, str_eqb_true, strip_blank.
    split; [| by right]. intros [-> | H]; [constructor | done]. }
  assert (Hoff : any_keyword_in off_topic_keywords (lower user_input) = true
                 <-> mentions_off_topic lower user_input).
  { apply any_keyword_in_exists. }
  pose proof (repeated_check user_input context) as Hrep.
  unfold validate.
  destruct (bool_decide (user_input = []) || str_eqb (strip user_input) [])
    eqn:Eb.
  { assert (blank user_input) by by apply Hblank. repeat split; done. }
  assert (Hnb : ~ blank user_input).
  { intros H. apply Hblank in H. congruence. }
  destruct (length (strip user_input) <? 5)%nat eqn:El.
  { apply Nat.ltb_lt in El. repeat split; intros; (done || lia). }
  apply Nat.ltb_ge in El.
  destruct ((3 <=? length (conversation_history context))%nat && _) eqn:Er.
  { assert (repeats user_input context) by by apply Hrep.
    repeat split; intros; (done || lia). }
  assert (Hnr : ~ repeats user_input context).
  { intros H. apply Hrep in H. congruence. }
  destruct (any_keyword_in off_topic_keywords (lower user_input)) eqn:Eo.
  { assert (mentions_off_topic lower user_input) by by apply Hoff.
    repeat split; intros; (done || lia). }
  assert (Hno : ~ mentions_off_topic lower user_input).
  { intros H. apply Hoff in H. congruence. }
  repeat split; intros; (done || lia).
Qed.

(** The validator on the inputs of examples.py and on a few more, with the
    ASCII lowering. *)

Example validate_empty :
  validate ascii_lower (py "") (sample_session PROBLEM_CLARIFICATION 0)
  = (false, Some (py "empty")).
Proof. by vm_compute. Qed.

Example validate_too_short :
  validate ascii_lower (py "  ok  ") (sample_session PROBLEM_CLARIFICATION 0)
  = (false, Some (py "too_short")).
Proof. by vm_compute. Qed.

(** Four characters that contain an off-topic keyword: too short comes first. *)
Example validate_short_before_off_topic :
  validate ascii_lower [22825; 27668; 22914; 20309]
    (sample_session PROBLEM_CLARIFICATION 0)
  = (false, Some (py "too_short")).
Proof. by vm_compute. Qed.

Example validate_off_topic :
  validate ascii_lower (py "What is the WEATHER like")
    (sample_session PROBLEM_CLARIFICATION 0)
  = (false, Some (py "off_topic")).
Proof. by vm_compute. Qed.

Example validate_valid :
  validate ascii_lower (py "Let me think about using a hash table")
    (sample_session PROBLEM_CLARIFICATION 0)
  = (true, None).
Proof. by vm_compute. Qed.

(** With two entries in the log the repeated check is not made. *)
Example validate_repeated_needs_three_entries :
  let said := {| role := py "user"; content := py "use a hash table";
                 timestamp_of := 0%Z; stage := PROBLEM_CLARIFICATION |} in
  let reply := {| role := py "assistant"; content := py "Go on.";
                  timestamp_of := 0%Z; stage := PROBLEM_CLARIFICATION |} in
  let with_log log :=
    snd (mapM (fun m => add_message (role m) (content m)) log
           (sample_world PROBLEM_CLARIFICATION 0)) in
  validate ascii_lower (py " use a hash table ")
    (session (with_log [said; reply])) = (true, None) /\
  validate ascii_lower (py " use a hash table ")
    (session (with_log [said; reply; reply])) = (false, Some (py "repeated")) /\
  validate ascii_lower (py " use a hash table ")
    (session (with_log [said; reply; reply; reply])) = (true, None).
Proof. by vm_compute. Qed.

Lemma validate_classification_witness :
  validate ascii_lower (py "   ") (sample_session PROBLEM_CLARIFICATION 0)
    = (false, Some (py "empty")) /\
  validate ascii_lower (py "  ok  ") (sample_session PROBLEM_CLARIFICATION 0)
    = (false, Some (py "too_short")) /\
  validate ascii_lower (py " use a hash table ") sample_session_with_log
    = (false, Some (py "repeated")) /\
  validate ascii_lower (py "What is the WEATHER like")
    (sample_session PROBLEM_CLARIFICATION 0)
    = (false, Some (py "off_topic")) /\
  validate ascii_lower (py "Let me think about using a hash table")
    (sample_session PROBLEM_CLARIFICATION 0)
    = (true, None).
Proof.
  assert (Hnb : forall s : pystr, strip s <> [] -> ~ blank s).
  { intros s Hs Hb. by apply strip_blank in Hb. }
  assert (Hnr : forall s : pystr,
            ~ repeats s (sample_session PROBLEM_CLARIFICATION 0)).
  { intros s [Hlen _]. simpl in Hlen. lia. }
  assert (Hno : forall s : pystr,
            any_keyword_in off_topic_keywords (ascii_lower s) = false ->
            ~ mentions_off_topic ascii_lower s).
  { intros s Hs Hm. apply any_keyword_in_exists in Hm. congruence. }
  split; [| split; [| split; [| split]]].
  - apply (validate_classification ascii_lower (py "   ")
             (sample_session PROBLEM_CLARIFICATION 0)).
    repeat constructor.
  - apply (validate_classification ascii_lower (py "  ok  ")
             (sample_session PROBLEM_CLARIFICATION 0)).
    + apply Hnb. by vm_compute.
    + vm_compute. lia.
  - apply (validate_classification ascii_lower (py " use a hash table ")
             sample_session_with_log).
    + apply Hnb. by vm_compute.
    + vm_compute. lia.
    + split; [vm_compute; lia |].
      exists sample_said. split; [| split; by vm_compute].
      exists 0%nat. split; [vm_compute; lia | by vm_compute].
  - apply (validate_classification ascii_lower (py "What is the WEATHER like")
             (sample_session PROBLEM_CLARIFICATION 0)).
    + apply Hnb. by vm_compute.
    + vm_compute. lia.
    + apply Hnr.
    + exists (py "weather"). split.
      * unfold off_topic_keywords. apply list_elem_of_here.
      * exists (py "what is the "), (py " like"). by vm_compute.
  - apply (validate_classification ascii_lower
             (py "Let me think about using a hash table")
             (sample_session PROBLEM_CLARIFICATION 0)).
    + apply Hnb. by vm_compute.
    + vm_compute. lia.
    + apply Hnr.
    + apply Hno. by vm_compute.
Defined.

(** * Further properties *)

(** ** The response envelope *)

(** X1: building a response fails exactly when the invariant would be
    broken (a success without text, a failure without an error message), the
    failure being a ValueError; otherwise the response holds the seven values
    given, unchanged, and satisfies the invariant. *)
Theorem ModuleResponse_init_spec
    (ok : bool) (text : pystr) (next : option Stage)
    (updates meta : gmap pystr PyVal)
    (err : option pystr) (lvl : option ExceptionLevel) :
  let broken :=
    (ok = true /\ text = []) \/
    (ok = false /\ (err = None \/ err = Some [])) in
  (broken ->
   exists msg : pystr,
     ModuleResponse_init ok text next updates meta err lvl
       = Raised (ValueError msg)) /\
  (~ broken ->
   exists r : ModuleResponse,
     ModuleResponse_init ok text next updates meta err lvl = Returned r /\
     well_formed r /\
     success r = ok /\ assistant_message r = text /\ next_stage r = next /\
     context_updates r = updates /\ response_metadata r = meta /\
     error_message r = err /\ exception_level r = lvl).
Proof.
  cbv zeta. unfold ModuleResponse_init, well_formed. split.
  - intros [[-> ->] | [-> Herr]].
    + simpl. by eexists.
    + simpl. rewrite bool_decide_eq_true_2 by done. by eexists.
  - intros Hok. destruct ok; simpl.
    + destruct text as [| c text]; [exfalso; apply Hok; by left |].
      simpl. eexists. split; [reflexivity |]. simpl. by repeat split.
    + rewrite bool_decide_eq_false_2 by (intros H; apply Hok; by right).
      eexists. split; [reflexivity |]. simpl.
      repeat split; try done. intros _.
      destruct err as [[| c m] |].
      * exfalso. apply Hok. right. split; [done | by right].
      * by exists (c :: m).
      * exfalso. apply Hok. right. split; [done | by left].
Qed.

(** [create_success_response] fails exactly on an empty message, and
    [create_error_response] exactly on an empty error message; what they
    return otherwise is a success with no error fields, and a failure with
    the fixed apology text, no next stage and no update instructions. *)
Lemma response_factories_spec
    (message : pystr) (next : option Stage) (updates : gmap pystr PyVal)
    (lvl : ExceptionLevel) :
  (create_success_response [] next updates
     = Raised (ValueError (py "Success response must have assistant_message"))) /\
  (create_error_response [] lvl
     = Raised (ValueError (py "Failed response must have error_message"))) /\
  (message <> [] ->
   create_success_response message next updates
     = Returned {| success := true; assistant_message := message;
                   next_stage := next; context_updates := updates;
                   response_metadata := ∅; error_message := None;
                   exception_level := None |} /\
   create_error_response message lvl
     = Returned {| success := false;
                   assistant_message :=
                     py "I encountered an issue. Let me try to help you another way.";
                   next_stage := None; context_updates := ∅;
                   response_metadata := ∅; error_message := Some message;
                   exception_level := Some lvl |}).
Proof.
  split; [reflexivity | split; [reflexivity |]].
  intros Hne. destruct message as [| c m]; [done |]. by split.
Qed.

Lemma response_factories_spec_witness :
  create_success_response (py "Go on.") None ∅
    = Returned {| success := true; assistant_message := py "Go on.";
                  next_stage := None; context_updates := ∅;
                  response_metadata := ∅; error_message := None;
                  exception_level := None |}.
Proof.
  apply (response_factories_spec (py "Go on.") None ∅ ERROR).
  by vm_compute.
Defined.

Lemma ModuleResponse_init_spec_witness :
  exists r : ModuleResponse,
    ModuleResponse_init false [] None ∅ ∅ (Some (py "boom")) (Some ERROR)
      = Returned r /\ well_formed r.
Proof.
  destruct (proj2 (ModuleResponse_init_spec false [] None ∅ ∅
                     (Some (py "boom")) (Some ERROR))) as (r & Hr & Hwf & _).
  - intros [[H _] | [_ [H | H]]]; discriminate H.
  - exists r. by split.
Defined.

(** ** The stage machine and the session methods *)

Lemma transition_table_moves_forward_by_one_aux (s t : Stage) :
  _get_next_stage s = Some t -> t <> s /\ Stage_value t = Stage_value s + 1.
Proof.
  intros H. destruct s; vm_compute in H; try discriminate H;
    injection H as <-; split; by vm_compute.
Qed.

(** X2: the transition table only moves forward, one stage at a time: the
    successor of a stage has the stage's value plus one.  So no stage is its
    own successor, none is skipped, and there is no way back. *)
Theorem transition_table_moves_forward_by_one (s t : Stage) :
  _get_next_stage s = Some t ->
  Stage_value t = Stage_value s + 1 /\ t <> s /\ _get_next_stage t <> Some s.
Proof.
  intros H. destruct s; vm_compute in H; try discriminate H;
    injection H as <-; repeat split; by vm_compute.
Qed.

Lemma transition_table_moves_forward_by_one_witness :
  Stage_value EDGE_CASE_CHECK = Stage_value PSEUDOCODE_DESIGN + 1 /\
  EDGE_CASE_CHECK <> PSEUDOCODE_DESIGN /\
  _get_next_stage EDGE_CASE_CHECK <> Some PSEUDOCODE_DESIGN.
Proof.
  apply (transition_table_moves_forward_by_one PSEUDOCODE_DESIGN EDGE_CASE_CHECK).
  reflexivity.
Defined.

Lemma transition_to_run (next : Stage) (w : World) :
  transition_to next w =
  (Returned tt,
   with_session
     {| session_id := session_id (session w);
        problem_text := problem_text (session w);
        problem_metadata := problem_metadata (session w);
        current_stage := next;
        stage_history := stage_history (session w) ++ [current_stage (session w)];
        stage_start_time := clock w (ticks w);
        conversation_history := conversation_history (session w);
        current_user_input := current_user_input (session w);
        identified_pattern := identified_pattern (session w);
        complexity_expectation := complexity_expectation (session w);
        user_approach := user_approach (session w);
        pseudocode := pseudocode (session w);
        detected_issues := detected_issues (session w);
        consecutive_invalid_inputs := consecutive_invalid_inputs (session w);
        skip_requested := skip_requested (session w);
        skipped_stages := skipped_stages (session w);
        frustration_detected := frustration_detected (session w);
        answer_requests := answer_requests (session w);
        metadata := metadata (session w);
        user_profile := user_profile (session w) |} (with_tick w)).
Proof. reflexivity. Qed.

(** X3: a transition to the table's successor of the current stage makes
    that successor the current stage, records the stage left as the last entry
    of the history, stamps the entry time with the clock, and leaves the log,
    the counters, the flags and the skipped stages alone; afterwards the last
    entry of the history differs from the current stage. *)
Theorem transition_to_successor (w : World) (next : Stage) :
  _get_next_stage (current_stage (session w)) = Some next ->
  let c' := session (snd (transition_to next w)) in
  fst (transition_to next w) = Returned tt /\
  current_stage c' = next /\
  stage_history c' = stage_history (session w) ++ [current_stage (session w)] /\
  last (stage_history c') <> Some (current_stage c') /\
  stage_start_time c' = clock w (ticks w) /\
  conversation_history c' = conversation_history (session w) /\
  consecutive_invalid_inputs c' = consecutive_invalid_inputs (session w) /\
  skip_requested c' = skip_requested (session w) /\
  skipped_stages c' = skipped_stages (session w) /\
  frustration_detected c' = frustration_detected (session w) /\
  answer_requests c' = answer_requests (session w).
Proof.
  intros Hnext. cbv zeta. rewrite transition_to_run. simpl.
  repeat split.
  rewrite last_snoc. intros [= Heq].
  destruct (transition_table_moves_forward_by_one_aux _ _ Hnext). congruence.
Qed.

Lemma transition_to_successor_witness :
  let c' :=
    session (snd (transition_to THOUGHT_ARTICULATION
                    (sample_world PROBLEM_CLARIFICATION 0))) in
  current_stage c' = THOUGHT_ARTICULATION /\
  stage_history c' = [PROBLEM_CLARIFICATION].
Proof.
  destruct (transition_to_successor (sample_world PROBLEM_CLARIFICATION 0)
              THOUGHT_ARTICULATION eq_refl) as (_ & Hcur & Hhist & _).
  split; [exact Hcur | exact Hhist].
Defined.

Lemma transitions_run (path : list Stage) (target : Stage) :
  forall w : World,
    exists (units : list ()) (w' : World),
      mapM transition_to (path ++ [target]) w = (Returned units, w') /\
      current_stage (session w') = target /\
      stage_history (session w')
        = stage_history (session w) ++ current_stage (session w) :: path.
Proof.
  induction path as [| s path IH]; intros w.
  - cbn [app mapM]. unfold mbind, M_bind. rewrite transition_to_run.
    cbn. eexists. eexists. by split.
  - cbn [app mapM]. unfold mbind at 1. unfold M_bind at 1.
    rewrite transition_to_run.
    set (w1 := with_session _ (with_tick w)).
    destruct (IH w1) as (units & w2 & Hrun & Hcur & Hhist).
    unfold mbind at 1. unfold M_bind at 1. rewrite Hrun.
    eexists. eexists. split; [reflexivity |]. split; [done |].
    rewrite Hhist. subst w1. cbn. by rewrite <- app_assoc.
Qed.

(** X4: transitions compose: after a sequence of transitions the current
    stage is the last target, and the history has grown by the stage the
    session started in followed by all targets but the last, in order;
    nothing is ever removed from the history. *)
Theorem transitions_compose (path : list Stage) (target : Stage) (w : World) :
  let run := mapM transition_to (path ++ [target]) w in
  (exists units : list (), fst run = Returned units) /\
  current_stage (session (snd run)) = target /\
  stage_history (session (snd run))
    = stage_history (session w) ++ current_stage (session w) :: path.
Proof.
  cbv zeta.
  destruct (transitions_run path target w) as (units & w' & -> & Hcur & Hhist).
  split; [by exists units | by split].
Qed.

Lemma add_message_run_valid (r text : pystr) (w : World) :
  r = py "user" \/ r = py "assistant" ->
  add_message r text w =
  (Returned tt,
   with_session
     {| session_id := session_id (session w);
        problem_text := problem_text (session w);
        problem_metadata := problem_metadata (session w);
        current_stage := current_stage (session w);
        stage_history := stage_history (session w);
        stage_start_time := stage_start_time (session w);
        conversation_history :=
          conversation_history (session w)
          ++ [{| role := r; content := text; timestamp_of := clock w (ticks w);
                 stage := current_stage (session w) |}];
        current_user_input := current_user_input (session w);
        identified_pattern := identified_pattern (session w);
        complexity_expectation := complexity_expectation (session w);
        user_approach := user_approach (session w);
        pseudocode := pseudocode (session w);
        detected_issues := detected_issues (session w);
        consecutive_invalid_inputs := consecutive_invalid_inputs (session w);
        skip_requested := skip_requested (session w);
        skipped_stages := skipped_stages (session w);
        frustration_detected := frustration_detected (session w);
        answer_requests := answer_requests (session w);
        metadata := metadata (session w);
        user_profile := user_profile (session w) |} (with_tick w)).
Proof.
  intros Hr. unfold add_message, mbind, M_bind, now, get_context.
  cbv beta iota. by rewrite bool_decide_eq_true_2.
Qed.

(** X5: [add_message] with a role other than "user" and "assistant" raises
    ValueError and leaves the session as it was; with one of the two roles it
    appends exactly one message to the log, carrying the role and content
    given, the clock reading and the current stage, and changes nothing else
    of the stage, the history or the counters. *)
Theorem add_message_spec (r text : pystr) (w : World) :
  let run := add_message r text w in
  (r <> py "user" -> r <> py "assistant" ->
   fst run = Raised (ValueError (py "Invalid role: " ++ r)) /\
   session (snd run) = session w) /\
  (r = py "user" \/ r = py "assistant" ->
   fst run = Returned tt /\
   conversation_history (session (snd run))
     = conversation_history (session w)
       ++ [{| role := r; content := text; timestamp_of := clock w (ticks w);
              stage := current_stage (session w) |}] /\
   current_stage (session (snd run)) = current_stage (session w) /\
   stage_history (session (snd run)) = stage_history (session w) /\
   consecutive_invalid_inputs (session (snd run))
     = consecutive_invalid_inputs (session w)).
Proof.
  cbv zeta. split.
  - intros Hu Ha. unfold add_message, mbind, M_bind, now, get_context.
    cbv beta iota. rewrite bool_decide_eq_false_2 by (by intros [? | ?]).
    by split.
  - intros Hr. rewrite (add_message_run_valid _ _ _ Hr). by repeat split.
Qed.

Lemma add_message_spec_witness :
  fst (add_message (py "system") (py "hello")
         (sample_world PROBLEM_CLARIFICATION 0))
    = Raised (ValueError (py "Invalid role: " ++ py "system")) /\
  length (conversation_history
            (session (snd (add_message (py "user") (py "hello")
                             (sample_world PROBLEM_CLARIFICATION 0))))) = 1%nat.
Proof.
  split.
  - apply (proj1 (add_message_spec (py "system") (py "hello")
                    (sample_world PROBLEM_CLARIFICATION 0)));
      by vm_compute.
  - destruct (proj2 (add_message_spec (py "user") (py "hello")
                       (sample_world PROBLEM_CLARIFICATION 0)))
      as (_ & Hlog & _); [by left |].
    by rewrite Hlog.
Defined.

(** ** More on the recovery handlers *)

(** X6: on a stage that is neither critical nor skippable, which is the
    case of problem clarification and follow-up only, a skip request is
    refused with the neutral message: a success response with no next stage
    and no update instructions; nothing is logged and the world is as
    before. *)
Theorem skip_request_on_other_stage (w : World) :
  current_stage (session w) ∉ CRITICAL_STAGES ->
  current_stage (session w) ∉ SKIPPABLE_STAGES ->
  (current_stage (session w) = PROBLEM_CLARIFICATION \/
   current_stage (session w) = FOLLOW_UP) /\
  handle_skip_request w =
    (Returned {| success := true;
                 assistant_message :=
                   py "Let's complete this part first before moving on.";
                 next_stage := None; context_updates := ∅;
                 response_metadata := ∅; error_message := None;
                 exception_level := None |}, w).
Proof.
  rewrite elem_of_CRITICAL_STAGES, elem_of_SKIPPABLE_STAGES.
  intros Hc Hs. expose_world w.
  destruct current_stage0; try (exfalso; tauto);
    (split; [tauto | by vm_compute]).
Qed.

Lemma skip_request_on_other_stage_witness :
  fst (handle_skip_request (sample_world FOLLOW_UP 0))
  = Returned {| success := true;
                assistant_message :=
                  py "Let's complete this part first before moving on.";
                next_stage := None; context_updates := ∅;
                response_metadata := ∅; error_message := None;
                exception_level := None |}.
Proof.
  destruct (skip_request_on_other_stage (sample_world FOLLOW_UP 0)) as [_ ->].
  - rewrite elem_of_CRITICAL_STAGES. by intros [H | [H | H]].
  - rewrite elem_of_SKIPPABLE_STAGES. by intros [H | H].
  - reflexivity.
Defined.

(** X7: whatever the stage, a skip request is answered by a success
    response, never by a failure or an exception; the response suggests a
    next stage exactly when the current stage is complexity analysis, and
    then it is pseudocode design.  A skip of the pattern summary is recorded
    but moves nowhere. *)
Theorem skip_request_moves_only_from_complexity (w : World) :
  exists r : ModuleResponse,
    fst (handle_skip_request w) = Returned r /\
    success r = true /\
    (next_stage r <> None <-> current_stage (session w) = COMPLEXITY_ANALYSIS) /\
    (current_stage (session w) = COMPLEXITY_ANALYSIS ->
     next_stage r = Some PSEUDOCODE_DESIGN) /\
    (current_stage (session w) = PATTERN_SUMMARY ->
     next_stage r = None /\
     context_updates r
       = {[ py "skipped_stages" :=
              VStages (skipped_stages (session w) ++ [PATTERN_SUMMARY]) ]}).
Proof.
  expose_world w.
  destruct current_stage0; eexists; (split; [by vm_compute |]);
    (split; [by vm_compute |]);
    (split; [split; [intros H; try done; by vm_compute in H | intros H; by vm_compute] |]);
    (split; intros H; try discriminate H; try (by vm_compute)).
  all: split; by vm_compute.
Qed.

Lemma invalid_input_template_lookup (input_type m : pystr) :
  invalid_input_templates !! input_type = Some m ->
  input_type ∈ [py "empty"; py "too_short"; py "off_topic"; py "repeated"] /\
  m <> [] /\ m <> help_mode_message.
Proof.
  unfold invalid_input_templates. intros Hv.
  repeat (apply lookup_insert_Some in Hv as [[<- <-] | [_ Hv]];
          [split; [rewrite !elem_of_cons; tauto | split; by vm_compute] |]).
  by rewrite lookup_empty in Hv.
Qed.

Lemma invalid_input_message_nonempty (input_type : pystr) :
  dict_get invalid_input_templates input_type
    (py "I didn't catch that. Could you share your thoughts?") <> [].
Proof.
  unfold dict_get.
  destruct (invalid_input_templates !! input_type) as [m |] eqn:Hm.
  - by apply invalid_input_template_lookup in Hm as (_ & Hm & _).
  - by vm_compute.
Qed.

(** Below the threshold the handler answers with the canned message and
    touches nothing. *)
Lemma handle_invalid_input_below (w : World) (input_type : pystr) :
  (consecutive_invalid_inputs (session w) + 1 < 3)%Z ->
  handle_invalid_input input_type w =
  (Returned {| success := true;
               assistant_message :=
                 dict_get invalid_input_templates input_type
                   (py "I didn't catch that. Could you share your thoughts?");
               next_stage := None;
               context_updates :=
                 {[ py "consecutive_invalid_inputs" :=
                      VInt (consecutive_invalid_inputs (session w) + 1) ]};
               response_metadata := ∅; error_message := None;
               exception_level := None |}, w).
Proof.
  intros Hlt. unfold handle_invalid_input, mbind, M_bind, get_context.
  cbv beta iota zeta.
  rewrite (proj2 (Z.leb_gt _ _) Hlt).
  unfold dict_item.
  replace (invalid_input_templates !! py "empty")
    with (Some (py "I didn't catch that. Could you share your thoughts?"))
    by (by vm_compute).
  cbv beta iota delta [mret M_ret].
  unfold lift, create_success_response, ModuleResponse_init.
  simpl andb.
  by rewrite (bool_decide_eq_false_2 _ (invalid_input_message_nonempty input_type)).
Qed.

(** At the threshold and beyond it logs a warning and answers with the
    detailed hint. *)
Lemma handle_invalid_input_help (w : World) (input_type : pystr) :
  (3 <= consecutive_invalid_inputs (session w) + 1)%Z ->
  handle_invalid_input input_type w =
  (Returned {| success := true; assistant_message := help_mode_message;
               next_stage := None;
               context_updates :=
                 <[ py "consecutive_invalid_inputs" := VInt 0 ]>
                   {[ py "help_mode_triggered" := VBool true ]};
               response_metadata := ∅; error_message := None;
               exception_level := None |},
   with_event
     (EvLog LOG_WARNING
        (py "3 consecutive invalid inputs in session " ++ session_id (session w)))
     w).
Proof.
  intros Hle. unfold handle_invalid_input, mbind, M_bind, get_context.
  cbv beta iota zeta.
  rewrite (proj2 (Z.leb_le _ _) Hle).
  reflexivity.
Qed.

(** X8: the invalid-input policy for any counter and any category.  Help
    mode is triggered whenever the counter is 2 or more, not only at 2, and
    resets the counter to 0; below that the counter carried is the old one
    plus one, the message is the one stored for the category, and a category
    without a stored message gets the empty-input message.  The counter
    carried in the update instructions is never above 2. *)
Theorem invalid_input_policy (w : World) (input_type : pystr) :
  let c := consecutive_invalid_inputs (session w) in
  exists (r : ModuleResponse) (n : Z),
    fst (handle_invalid_input input_type w) = Returned r /\
    success r = true /\ next_stage r = None /\
    context_updates r !! py "consecutive_invalid_inputs" = Some (VInt n) /\
    (n <= 2)%Z /\
    ((2 <= c)%Z ->
     n = 0%Z /\ assistant_message r = help_mode_message /\
     context_updates r !! py "help_mode_triggered" = Some (VBool true)) /\
    ((c < 2)%Z ->
     n = (c + 1)%Z /\
     context_updates r !! py "help_mode_triggered" = None /\
     snd (handle_invalid_input input_type w) = w /\
     (forall m : pystr,
        invalid_input_templates !! input_type = Some m -> assistant_message r = m) /\
     (invalid_input_templates !! input_type = None ->
      assistant_message r
        = py "I didn't catch that. Could you share your thoughts?")).
Proof.
  cbv zeta.
  destruct (Z_lt_le_dec (consecutive_invalid_inputs (session w) + 1) 3)
    as [Hlt | Hle].
  - rewrite (handle_invalid_input_below _ _ Hlt).
    eexists. eexists. split; [reflexivity |]. cbn.
    split; [done |]. split; [done |].
    split; [apply lookup_singleton_eq |].
    split; [lia |]. split; [lia |]. intros _.
    split; [done |].
    split; [apply lookup_singleton_ne; by vm_compute |].
    split; [done |]. unfold dict_get.
    split; [by intros m -> | by intros ->].
  - rewrite (handle_invalid_input_help _ _ Hle).
    eexists. eexists. split; [reflexivity |]. cbn.
    split; [done |]. split; [done |].
    split; [apply lookup_insert_eq |].
    split; [lia |]. split; [| lia]. intros _.
    split; [done |]. split; [done |]. by vm_compute.
Qed.

(** X9: every category the validator reports has a stored message of its
    own, so an input the validator rejects, on a session whose counter is
    below 2, is answered with the message of its category, never with the
    fallback for unknown categories. *)
Theorem validator_categories_have_messages
    (lower : pystr -> pystr) (user_input : pystr) (w : World) (category : pystr) :
  validate lower user_input (session w) = (false, Some category) ->
  (consecutive_invalid_inputs (session w) < 2)%Z ->
  exists (r : ModuleResponse) (m : pystr),
    invalid_input_templates !! category = Some m /\
    fst (handle_invalid_input category w) = Returned r /\
    assistant_message r = m /\
    context_updates r
      = {[ py "consecutive_invalid_inputs" :=
             VInt (consecutive_invalid_inputs (session w) + 1) ]}.
Proof.
  intros Hv Hc.
  assert (Hm : exists m, invalid_input_templates !! category = Some m).
  { unfold validate in Hv.
    repeat (match type of Hv with
            | (if ?b then _ else _) = _ => destruct b
            end;
            [injection Hv as <-; eexists; by vm_compute |]).
    discriminate Hv. }
  destruct Hm as [m Hm].
  rewrite handle_invalid_input_below by lia.
  eexists. exists m. split; [done |]. split; [reflexivity |]. cbn.
  split; [| done]. unfold dict_get. by rewrite Hm.
Qed.

Lemma validator_categories_have_messages_witness :
  exists (r : ModuleResponse) (m : pystr),
    invalid_input_templates !! py "too_short" = Some m /\
    fst (handle_invalid_input (py "too_short")
           (sample_world PROBLEM_CLARIFICATION 0)) = Returned r /\
    assistant_message r = m.
Proof.
  destruct (validator_categories_have_messages ascii_lower (py "ok")
              (sample_world PROBLEM_CLARIFICATION 0) (py "too_short"))
    as (r & m & Hm & Hr & Hmsg & _).
  - by vm_compute.
  - by vm_compute.
  - exists r, m. by repeat split.
Defined.


Lemma invalid_input_policy_witness :
  exists r : ModuleResponse,
    fst (handle_invalid_input (py "surprise")
           (sample_world PROBLEM_CLARIFICATION 5)) = Returned r /\
    assistant_message r = help_mode_message.
Proof.
  destruct (invalid_input_policy (sample_world PROBLEM_CLARIFICATION 5)
              (py "surprise"))
    as (r & n & Hr & _ & _ & _ & _ & Hhelp & _).
  exists r. split; [exact Hr |]. apply Hhelp. by vm_compute.
Defined.

(** ** More on the validator and the detectors *)

Lemma blank_check (text : pystr) :
  bool_decide (text = []) || str_eqb (strip text) [] = true <-> blank text.
Proof.
  rewrite orb_true_iff, bool_decide_eq_true, str_eqb_true, strip_blank.
  split; [| by right]. intros [-> | H]; [constructor | done].
Qed.

(** X11: the validator accepts a text exactly when none of the four checks
    applies: it is not blank, has at least 5 characters once trimmed, does
    not repeat a recent user message and mentions no off-topic keyword.  The
    flag and the category always agree (valid with no category, or invalid
    with one of the four categories). *)
Theorem validate_accepts_iff
    (lower : pystr -> pystr) (user_input : pystr) (context : InterviewContext) :
  (validate lower user_input context = (true, None) <->
   ~ blank user_input /\ (5 <= length (strip user_input))%nat /\
   ~ repeats user_input context /\ ~ mentions_off_topic lower user_input) /\
  (validate lower user_input context = (true, None) \/
   exists category : pystr,
     validate lower user_input context = (false, Some category) /\
     category ∈ [py "empty"; py "too_short"; py "repeated"; py "off_topic"]).
Proof.
  pose proof (blank_check user_input) as Hb.
  pose proof (repeated_check user_input context) as Hr.
  pose proof (any_keyword_in_exists off_topic_keywords (lower user_input)) as Ho.
  fold (mentions_off_topic lower user_input) in Ho.
  unfold validate.
  destruct (bool_decide (user_input = []) || str_eqb (strip user_input) []).
  { split; [split; [done | intros (H & _); exfalso; apply H; by apply Hb] |].
    right. eexists. split; [done |]. rewrite !elem_of_cons. tauto. }
  destruct (length (strip user_input) <? 5)%nat eqn:El.
  { apply Nat.ltb_lt in El.
    split; [split; [done | intros (_ & H & _); lia] |].
    right. eexists. split; [done |]. rewrite !elem_of_cons. tauto. }
  apply Nat.ltb_ge in El.
  destruct ((3 <=? length (conversation_history context))%nat && _).
  { split; [split; [done | intros (_ & _ & H & _); exfalso; apply H; by apply Hr] |].
    right. eexists. split; [done |]. rewrite !elem_of_cons. tauto. }
  destruct (any_keyword_in off_topic_keywords (lower user_input)).
  { split; [split; [done | intros (_ & _ & _ & H); exfalso; apply H; by apply Ho] |].
    right. eexists. split; [done |]. rewrite !elem_of_cons. tauto. }
  split; [| by left]. split; [| done]. intros _.
  split; [intros H; apply Hb in H; discriminate H |]. split; [done |].
  split; [intros H; apply Hr in H; discriminate H |].
  intros H. apply Ho in H. discriminate H.
Qed.

(** X12: a skip keyword sent by itself never gets past the validator: each
    of the five has fewer than 5 characters, so it is rejected as too short
    in every session, although the skip detector flags it. *)
Theorem bare_skip_keyword_is_too_short
    (lower : pystr -> pystr) (kw : pystr) (context : InterviewContext) :
  kw ∈ skip_keywords ->
  validate lower kw context = (false, Some (py "too_short")) /\
  detect_skip_request ascii_lower kw = true.
Proof.
  unfold skip_keywords. rewrite !elem_of_cons.
  intros [-> | [-> | [-> | [-> | [-> | H]]]]]; [| | | | | by apply elem_of_nil in H];
    split; by vm_compute.
Qed.

Lemma bare_skip_keyword_is_too_short_witness :
  validate ascii_lower (py "skip") (sample_session COMPLEXITY_ANALYSIS 0)
    = (false, Some (py "too_short")) /\
  detect_skip_request ascii_lower (py "skip") = true.
Proof.
  apply (bare_skip_keyword_is_too_short ascii_lower (py "skip")
           (sample_session COMPLEXITY_ANALYSIS 0)).
  unfold skip_keywords. apply list_elem_of_here.
Defined.

(** What does not begin with a space is left alone by [lstrip]. *)
Lemma lstrip_fixed (s : pystr) :
  match s with [] => True | c :: _ => isspace c = false end -> lstrip s = s.
Proof. destruct s as [| c s]; [done |]. simpl. by intros ->. Qed.

(** [lstrip] removes a blank prefix and nothing else. *)
Lemma lstrip_suffix (s : pystr) :
  exists pre : pystr, s = pre ++ lstrip s /\ blank pre.
Proof.
  induction s as [| c s (pre & Hs & Hpre)]; simpl.
  - exists []. split; [done | constructor].
  - destruct (isspace c) eqn:Hc.
    + exists (c :: pre). split; [simpl; congruence | by constructor].
    + exists []. split; [done | constructor].
Qed.

(** The text is the trimmed text between two blank margins. *)
Lemma strip_decompose (s : pystr) :
  exists pre post : pystr, s = pre ++ strip s ++ post /\ blank pre /\ blank post.
Proof.
  destruct (lstrip_suffix s) as (pre & Hs & Hpre).
  destruct (lstrip_suffix (rev (lstrip s))) as (q & Hq & Hblank).
  exists pre, (rev q). unfold strip, rstrip.
  split; [| split; [done | by apply blank_rev]].
  rewrite <- rev_app_distr, <- Hq, rev_involutive. exact Hs.
Qed.

(** The trimmed text neither begins nor ends with a space. *)
Lemma strip_edges (s : pystr) :
  lstrip (strip s) = strip s /\ lstrip (rev (strip s)) = rev (strip s).
Proof.
  unfold strip, rstrip. rewrite rev_involutive.
  pose proof (lstrip_head (rev (lstrip s))) as Hend.
  split; [| by apply lstrip_fixed].
  apply lstrip_fixed.
  destruct (lstrip_suffix (rev (lstrip s))) as (q & Hq & _).
  pose proof (lstrip_head s) as Hstart.
  apply (f_equal (@rev _)) in Hq. rewrite rev_involutive, rev_app_distr in Hq.
  destruct (rev (lstrip (rev (lstrip s)))) as [| c r]; [done |].
  rewrite Hq in Hstart. exact Hstart.
Qed.

Lemma strip_idempotent (s : pystr) : strip (strip s) = strip s.
Proof.
  destruct (strip_edges s) as [Hl Hr].
  unfold strip at 1. unfold rstrip. by rewrite Hl, Hr, rev_involutive.
Qed.

(** X13: when the validator reports [repeated], the logged message it
    matched is a user message among the last three whose content is already
    trimmed and at least 5 characters long; a logged message whose content
    carries leading or trailing whitespace can never be matched, the input
    being trimmed before the comparison and the log not. *)
Theorem repeated_matches_only_trimmed_content
    (lower : pystr -> pystr) (user_input : pystr) (context : InterviewContext) :
  validate lower user_input context = (false, Some (py "repeated")) ->
  exists m : Message,
    among_last 3 (conversation_history context) m /\
    role m = py "user" /\
    content m = strip user_input /\
    strip (content m) = content m /\
    (5 <= length (content m))%nat.
Proof.
  intros Hv. unfold validate in Hv.
  destruct (bool_decide (user_input = []) || str_eqb (strip user_input) []);
    [by vm_compute in Hv |].
  destruct (length (strip user_input) <? 5)%nat eqn:El; [by vm_compute in Hv |].
  apply Nat.ltb_ge in El.
  destruct ((3 <=? length (conversation_history context))%nat && _) eqn:Er.
  - apply repeated_check in Er as (_ & m & Hlast & Hrole & Hcontent).
    exists m. rewrite Hcontent. repeat split; try done. apply strip_idempotent.
  - destruct (any_keyword_in off_topic_keywords (lower user_input));
      by vm_compute in Hv.
Qed.

Lemma repeated_matches_only_trimmed_content_witness :
  exists m : Message,
    among_last 3 (conversation_history sample_session_with_log) m /\
    role m = py "user" /\
    content m = strip (py " use a hash table ").
Proof.
  destruct (repeated_matches_only_trimmed_content ascii_lower
              (py " use a hash table ") sample_session_with_log)
    as (m & Hlast & Hrole & Hcontent & _).
  - by vm_compute.
  - exists m. by repeat split.
Defined.






(** X15: logging and validating compose: once a session whose log has at
    least two entries records a user message with a trimmed content of 5
    characters or more, the validator reports that same text as [repeated],
    however it is padded with whitespace. *)
Theorem logged_user_message_is_repeated
    (lower : pystr -> pystr) (user_input : pystr) (w : World) :
  ~ blank user_input ->
  (5 <= length (strip user_input))%nat ->
  (2 <= length (conversation_history (session w)))%nat ->
  let w' := snd (add_message (py "user") (strip user_input) w) in
  validate lower user_input (session w') = (false, Some (py "repeated")).
Proof.
  intros Hnb Hlen Hlog. cbv zeta.
  rewrite add_message_run_valid by (by left). cbn [snd with_session session].
  unfold validate.
  rewrite (proj1 (not_true_iff_false _) (fun H => Hnb (proj1 (blank_check _) H))).
  rewrite (proj2 (Nat.ltb_ge _ _) Hlen).
  rewrite (proj2 (repeated_check _ _)); [done |].
  split; cbn [conversation_history]; [rewrite length_app; simpl; lia |].
  exists {| role := py "user"; content := strip user_input;
            timestamp_of := clock w (ticks w);
            stage := current_stage (session w) |}.
  split; [| by split].
  exists (length (conversation_history (session w))).
  split; [rewrite length_app; simpl; lia |].
  by rewrite lookup_app_r, Nat.sub_diag by lia.
Qed.

Lemma logged_user_message_is_repeated_witness :
  validate ascii_lower (py "  use a hash table")
    (session
       (snd (add_message (py "user") (strip (py "  use a hash table"))
               (snd (mapM (fun m => add_message (role m) (content m))
                       [sample_reply; sample_reply]
                       (sample_world PROBLEM_CLARIFICATION 0))))))
  = (false, Some (py "repeated")).
Proof.
  apply (logged_user_message_is_repeated ascii_lower (py "  use a hash table")).
  - intros H. apply strip_blank in H. by vm_compute in H.
  - vm_compute. lia.
  - vm_compute. lia.
Defined.

(** ** More on the safe invocation wrapper *)

(** The wrapper, by the outcome of the two calls it makes. *)
Lemma safe_module_call_cases (module : ModuleInterface) (w : World) :
  safe_module_call module w =
  let w1 := with_event (EvValidateContext (module_name module)) w in
  match validate_context module (session w) with
  | Raised e => except_clauses module e w1
  | Returned false =>
      except_clauses module
        (StateInconsistencyException
           (py "Context validation failed for " ++ module_name module) ERROR) w1
  | Returned true =>
      let w2 := with_event (EvProcess (module_name module)) w1 in
      match process module (session w) with
      | Raised e => except_clauses module e w2
      | Returned (ObjModuleResponse r) => (Returned (Some r), w2)
      | Returned (ObjOther _) =>
          except_clauses module
            (ValueError
               (module_name module ++ py " returned invalid response type")) w2
      end
  end.
Proof.
  unfold safe_module_call, try_except, call_validate_context, call_process.
  unfold mbind at 1 2 3 4 5 6, M_bind, get_context, emit, lift.
  cbv beta iota zeta.
  destruct (validate_context module (session w)) as [[|] | e]; cbv beta iota.
  - simpl negb. cbv beta iota. simpl session.
    destruct (process module (session w)) as [[r | v] | []]; reflexivity.
  - reflexivity.
  - destruct e; reflexivity.
Qed.

(** What the [except] clauses make of each exception. *)
Lemma except_clauses_outcome (module : ModuleInterface) (e : PyExc) (w : World) :
  match e with
  | LLMCallException _ _ => fst (except_clauses module e w) = Returned None
  | StateInconsistencyException [] _ =>
      fst (except_clauses module e w)
      = Raised (ValueError (py "Failed response must have error_message"))
  | StateInconsistencyException (c :: m) _ =>
      except_clauses module e w
      = (Returned
           (Some {| success := false;
                    assistant_message :=
                      py "I encountered an issue. Let me try to help you another way.";
                    next_stage := None; context_updates := ∅;
                    response_metadata := ∅; error_message := Some (c :: m);
                    exception_level := Some ERROR |}),
         with_event (EvLog LOG_ERROR (py "State inconsistency: " ++ c :: m)) w)
  | NonException _ => except_clauses module e w = (Raised e, w)
  | _ =>
      except_clauses module e w
      = (Returned
           (Some {| success := false;
                    assistant_message :=
                      py "I encountered an issue. Let me try to help you another way.";
                    next_stage := None; context_updates := ∅;
                    response_metadata := ∅;
                    error_message := Some (py "Unexpected error: " ++ exc_str e);
                    exception_level := Some CRITICAL |}),
         with_event
           (EvLog LOG_CRITICAL
              (py "Unexpected exception in " ++ module_name module ++ py ": "
               ++ exc_str e)) w)
  end.
Proof.
  destruct e as [m l | m l | [| c m] l | m i | t | t | t]; reflexivity.
Qed.

Lemma validate_calls_snoc (t : list Event) (ev : Event) :
  validate_calls (t ++ [ev])
  = (validate_calls t + (if is_validate_call ev then 1 else 0))%nat.
Proof.
  unfold validate_calls. rewrite List.filter_app, length_app. simpl.
  by destruct (is_validate_call ev).
Qed.

(** The [except] clauses log and sleep; they call no method of the module. *)
Lemma except_clauses_calls_nothing (module : ModuleInterface) (e : PyExc) :
  calls_nothing (except_clauses module e).
Proof.
  intros w. pose proof (except_clauses_outcome module e w) as H.
  destruct e as [m l | m l | [| c m] l | m i | t | t | t];
    try (rewrite H; cbn; by rewrite process_calls_snoc, validate_calls_snoc, !Nat.add_0_r).
  - unfold except_clauses. rewrite handle_llm_failure_retry by lia. cbn.
    by rewrite !process_calls_snoc, !validate_calls_snoc, !Nat.add_0_r.
  - unfold except_clauses, mbind, M_bind, logger, emit, lift,
      create_error_response, ModuleResponse_init.
    cbv beta iota. simpl andb. cbv beta iota.
    cbn. by rewrite process_calls_snoc, validate_calls_snoc, !Nat.add_0_r.
  - by rewrite H.
Qed.

(** X16: a response that is a ModuleResponse is handed back as it is: when
    the precondition check passes and [process] returns one, the wrapper
    returns that very response, having logged nothing and slept not at all;
    the only trace of the call are the two method calls. *)
Theorem safe_module_call_passes_response_through
    (module : ModuleInterface) (w : World) (r : ModuleResponse) :
  validate_context module (session w) = Returned true ->
  process module (session w) = Returned (ObjModuleResponse r) ->
  safe_module_call module w =
    (Returned (Some r),
     with_event (EvProcess (module_name module))
       (with_event (EvValidateContext (module_name module)) w)) /\
  sleeps (trace (snd (safe_module_call module w))) = sleeps (trace w).
Proof.
  intros Hv Hp. rewrite safe_module_call_cases, Hv, Hp. cbv zeta.
  split; [done |]. cbn. by rewrite !sleeps_snoc, !app_nil_r.
Qed.

Lemma safe_module_call_passes_response_through_witness :
  exists r : ModuleResponse,
    fst (safe_module_call (SimpleRecognizer ascii_lower)
           (sample_world PROBLEM_CLARIFICATION 0)) = Returned (Some r) /\
    next_stage r = Some THOUGHT_ARTICULATION.
Proof.
  eexists. split.
  - rewrite (proj1 (safe_module_call_passes_response_through
                      (SimpleRecognizer ascii_lower)
                      (sample_world PROBLEM_CLARIFICATION 0) _ eq_refl eq_refl)).
    reflexivity.
  - reflexivity.
Defined.

(** X17: a module whose precondition check returns false never has
    [process] called: the wrapper logs the state inconsistency as an error and
    returns a failure response at error severity whose error message names
    the module, with no next stage and no update instructions. *)
Theorem precondition_failure_is_state_inconsistency
    (module : ModuleInterface) (w : World) :
  validate_context module (session w) = Returned false ->
  exists r : ModuleResponse,
    fst (safe_module_call module w) = Returned (Some r) /\
    success r = false /\ exception_level r = Some ERROR /\
    error_message r
      = Some (py "Context validation failed for " ++ module_name module) /\
    next_stage r = None /\ context_updates r = ∅ /\
    process_calls (trace (snd (safe_module_call module w)))
      = process_calls (trace w) /\
    last (trace (snd (safe_module_call module w)))
      = Some (EvLog LOG_ERROR
                (py "State inconsistency: "
                 ++ (py "Context validation failed for " ++ module_name module))).
Proof.
  intros Hv. rewrite (safe_module_call_run_rejected _ _ Hv).
  unfold mbind, M_bind, logger, emit, lift, create_error_response,
    ModuleResponse_init.
  cbv beta iota. simpl andb. cbv beta iota.
  eexists. split; [reflexivity |].
  cbn. rewrite !process_calls_snoc, last_snoc. cbn.
  repeat split; lia.
Qed.

Lemma precondition_failure_is_state_inconsistency_witness :
  exists r : ModuleResponse,
    fst (safe_module_call (SimpleRecognizer ascii_lower) blank_problem_world)
      = Returned (Some r) /\
    exception_level r = Some ERROR /\
    process_calls
      (trace (snd (safe_module_call (SimpleRecognizer ascii_lower)
                     blank_problem_world))) = 0%nat.
Proof.
  destruct (precondition_failure_is_state_inconsistency
              (SimpleRecognizer ascii_lower) blank_problem_world eq_refl)
    as (r & Hr & _ & Hl & _ & _ & _ & Hc & _).
  exists r. split; [exact Hr | split; [exact Hl | exact Hc]].
Defined.

(** X18: a state inconsistency raised by [process] with a message comes
    back as a failure response at error severity that carries that message,
    logged as an error; raised with an empty message, building that response
    fails and the ValueError of the envelope's invariant escapes from the
    wrapper. *)
Theorem safe_module_call_state_inconsistency
    (module : ModuleInterface) (w : World) (message : pystr) (lvl : ExceptionLevel) :
  validate_context module (session w) = Returned true ->
  process module (session w) = Raised (StateInconsistencyException message lvl) ->
  (message <> [] ->
   exists r : ModuleResponse,
     fst (safe_module_call module w) = Returned (Some r) /\
     success r = false /\ exception_level r = Some ERROR /\
     error_message r = Some message /\ next_stage r = None /\
     context_updates r = ∅ /\
     last (trace (snd (safe_module_call module w)))
       = Some (EvLog LOG_ERROR (py "State inconsistency: " ++ message))) /\
  (message = [] ->
   fst (safe_module_call module w)
     = Raised (ValueError (py "Failed response must have error_message"))).
Proof.
  intros Hv Hp. rewrite safe_module_call_cases, Hv, Hp. cbv zeta.
  split.
  - intros Hm. destruct message as [| c m]; [done |].
    pose proof (except_clauses_outcome module
                  (StateInconsistencyException (c :: m) lvl)) as H.
    cbv beta iota in H. rewrite H.
    eexists. split; [reflexivity |]. cbn. repeat split. apply last_snoc.
  - intros ->.
    apply (except_clauses_outcome module (StateInconsistencyException [] lvl)).
Qed.

Lemma safe_module_call_state_inconsistency_witness :
  (exists r : ModuleResponse,
     fst (safe_module_call (inconsistent_module (py "pseudocode missing"))
            (sample_world PSEUDOCODE_DESIGN 0)) = Returned (Some r) /\
     error_message r = Some (py "pseudocode missing")) /\
  fst (safe_module_call (inconsistent_module [])
         (sample_world PSEUDOCODE_DESIGN 0))
    = Raised (ValueError (py "Failed response must have error_message")).
Proof.
  split.
  - destruct (proj1 (safe_module_call_state_inconsistency
                       (inconsistent_module (py "pseudocode missing"))
                       (sample_world PSEUDOCODE_DESIGN 0)
                       (py "pseudocode missing") ERROR eq_refl eq_refl))
      as (r & Hr & _ & _ & He & _); [by vm_compute |].
    exists r. split; [exact Hr | exact He].
  - apply (proj2 (safe_module_call_state_inconsistency
                    (inconsistent_module [])
                    (sample_world PSEUDOCODE_DESIGN 0) [] ERROR eq_refl eq_refl)).
    reflexivity.
Defined.

(** X19: any other exception of [process] (a ValueError, an invalid-input
    or base coach exception, anything else under Exception) comes back as a
    failure response at critical severity whose error message is "Unexpected
    error: " followed by the text of the exception, logged as critical. *)
Theorem safe_module_call_unexpected_exception
    (module : ModuleInterface) (w : World) (e : PyExc) :
  validate_context module (session w) = Returned true ->
  process module (session w) = Raised e ->
  is_Exception e = true ->
  (forall m l, e <> LLMCallException m l) ->
  (forall m l, e <> StateInconsistencyException m l) ->
  exists r : ModuleResponse,
    fst (safe_module_call module w) = Returned (Some r) /\
    success r = false /\ exception_level r = Some CRITICAL /\
    error_message r = Some (py "Unexpected error: " ++ exc_str e) /\
    next_stage r = None /\ context_updates r = ∅ /\
    last (trace (snd (safe_module_call module w)))
      = Some (EvLog LOG_CRITICAL
                (py "Unexpected exception in " ++ module_name module ++ py ": "
                 ++ exc_str e)).
Proof.
  intros Hv Hp He Hllm Hsi. rewrite safe_module_call_cases, Hv, Hp. cbv zeta.
  pose proof (except_clauses_outcome module e) as H.
  destruct e as [m l | m l | m l | m i | t | t | t];
    try (exfalso; exact (Hllm _ _ eq_refl));
    try (exfalso; exact (Hsi _ _ eq_refl));
    try discriminate He;
    cbv beta iota in H; rewrite H;
    (eexists; split; [reflexivity |]; cbn; repeat split; apply last_snoc).
Qed.

Lemma safe_module_call_unexpected_exception_witness :
  exists r : ModuleResponse,
    fst (safe_module_call crashing_module (sample_world FOLLOW_UP 0))
      = Returned (Some r) /\
    exception_level r = Some CRITICAL /\
    error_message r = Some (py "Unexpected error: " ++ py "division by zero").
Proof.
  destruct (safe_module_call_unexpected_exception crashing_module
              (sample_world FOLLOW_UP 0) (OtherException (py "division by zero"))
              eq_refl eq_refl eq_refl)
    as (r & Hr & _ & Hl & He & _).
  - intros m l H. discriminate H.
  - intros m l H. discriminate H.
  - exists r. split; [exact Hr | split; [exact Hl | exact He]].
Defined.

(** X20: the wrapper lets an exception out in two cases only: something
    outside Exception raised by the module (which no clause catches), and
    the ValueError left by a state inconsistency with an empty message.
    Everything else a module raises or returns ends in a returned result. *)
Theorem safe_module_call_escapes (module : ModuleInterface) (w : World) (e : PyExc) :
  fst (safe_module_call module w) = Raised e ->
  let raised x :=
    validate_context module (session w) = Raised x \/
    (validate_context module (session w) = Returned true /\
     process module (session w) = Raised x) in
  (exists t, e = NonException t /\ raised e) \/
  (e = ValueError (py "Failed response must have error_message") /\
   exists lvl, raised (StateInconsistencyException [] lvl)).
Proof.
  assert (Hexc : forall x w1,
            fst (except_clauses module x w1) = Raised e ->
            (exists t, e = NonException t /\ x = e) \/
            (e = ValueError (py "Failed response must have error_message") /\
             exists lvl, x = StateInconsistencyException [] lvl)).
  { intros x w1 H. pose proof (except_clauses_outcome module x w1) as Ho.
    destruct x as [m l | m l | [| c m] l | m i | t | t | t];
      cbv beta iota in Ho; rewrite Ho in H; simpl in H; try discriminate H.
    - right. injection H as <-. split; [done | by exists l].
    - left. injection H as <-. by exists t. }
  rewrite safe_module_call_cases. cbv zeta.
  destruct (validate_context module (session w)) as [[|] | x] eqn:Hv.
  - destruct (process module (session w)) as [[r | v] | x] eqn:Hp.
    + discriminate 1.
    + intros H. apply Hexc in H as [(t & -> & [=]) | (_ & lvl & [=])].
    + intros H. apply Hexc in H as [(t & -> & ->) | (-> & lvl & ->)].
      * left. exists t. split; [done | right; by split].
      * right. split; [done |]. exists lvl. right. by split.
  - intros H. apply Hexc in H as [(t & -> & [=]) | (_ & lvl & [=])].
  - intros H. apply Hexc in H as [(t & -> & ->) | (-> & lvl & ->)].
    + left. exists t. split; [done | by left].
    + right. split; [done |]. exists lvl. by left.
Qed.

Lemma safe_module_call_escapes_witness :
  exists lvl : ExceptionLevel,
    process (inconsistent_module []) (session (sample_world PSEUDOCODE_DESIGN 0))
    = Raised (StateInconsistencyException [] lvl).
Proof.
  destruct (safe_module_call_escapes (inconsistent_module [])
              (sample_world PSEUDOCODE_DESIGN 0)
              (ValueError (py "Failed response must have error_message"))
              eq_refl) as [(t & Ht & _) | (_ & lvl & [Hl | [_ Hr]])].
  - discriminate Ht.
  - discriminate Hl.
  - exists lvl. exact Hr.
Defined.

(** X21: one call of the wrapper calls [validate_context] exactly once,
    and [process] once if the check returned true and not at all otherwise:
    never twice, and never after a failed or failing check. *)
Theorem safe_module_call_call_counts (module : ModuleInterface) (w : World) :
  let w' := snd (safe_module_call module w) in
  validate_calls (trace w') = S (validate_calls (trace w)) /\
  (validate_context module (session w) = Returned true ->
   process_calls (trace w') = S (process_calls (trace w))) /\
  (validate_context module (session w) <> Returned true ->
   process_calls (trace w') = process_calls (trace w)).
Proof.
  cbv zeta. rewrite safe_module_call_cases. cbv zeta.
  destruct (validate_context module (session w)) as [[|] | x] eqn:Hv.
  - destruct (process module (session w)) as [[r | v] | x];
      [| destruct (except_clauses_calls_nothing module
                     (ValueError
                        (module_name module ++ py " returned invalid response type"))
                     (with_event (EvProcess (module_name module))
                        (with_event (EvValidateContext (module_name module)) w)))
           as [-> ->]
       | destruct (except_clauses_calls_nothing module x
                     (with_event (EvProcess (module_name module))
                        (with_event (EvValidateContext (module_name module)) w)))
           as [-> ->]];
      cbn; rewrite !process_calls_snoc, !validate_calls_snoc; cbn;
      (split; [lia | split; [intros _; lia | done]]).
  - destruct (except_clauses_calls_nothing module
                (StateInconsistencyException
                   (py "Context validation failed for " ++ module_name module) ERROR)
                (with_event (EvValidateContext (module_name module)) w))
      as [-> ->].
    cbn. rewrite !process_calls_snoc, !validate_calls_snoc. cbn.
    split; [lia | split; [discriminate 1 | intros _; lia]].
  - destruct (except_clauses_calls_nothing module x
                (with_event (EvValidateContext (module_name module)) w))
      as [-> ->].
    cbn. rewrite !process_calls_snoc, !validate_calls_snoc. cbn.
    split; [lia | split; [discriminate 1 | intros _; lia]].
Qed.

(** X22: the wrapper returns the retry signal [None] exactly when a
    generation failure was raised, by [process] after a passed check or by
    the check itself (in which case [process] is not called); every other
    returned result is a response. *)
Theorem safe_module_call_retry_signal_iff (module : ModuleInterface) (w : World) :
  fst (safe_module_call module w) = Returned None <->
  (exists m l, validate_context module (session w) = Raised (LLMCallException m l)) \/
  (validate_context module (session w) = Returned true /\
   exists m l, process module (session w) = Raised (LLMCallException m l)).
Proof.
  assert (Hexc : forall x w1,
            fst (except_clauses module x w1) = Returned None <->
            exists m l, x = LLMCallException m l).
  { intros x w1. pose proof (except_clauses_outcome module x w1) as Ho.
    destruct x as [m l | m l | [| c m] l | m i | t | t | t];
      cbv beta iota in Ho; rewrite Ho; simpl;
      (split; [intros H; try discriminate H | intros (m' & l' & H); try discriminate H]).
    by exists m, l. done. }
  rewrite safe_module_call_cases. cbv zeta.
  destruct (validate_context module (session w)) as [[|] | x] eqn:Hv.
  - destruct (process module (session w)) as [[r | v] | x] eqn:Hp.
    + simpl. split; [discriminate 1 |].
      intros [(m & l & [=]) | (_ & m & l & [=])].
    + rewrite Hexc. split; [intros (m & l & [=]) |].
      intros [(m & l & [=]) | (_ & m & l & [=])].
    + rewrite Hexc. split.
      * intros (m & l & ->). right. split; [done | by exists m, l].
      * intros [(m & l & [=]) | (_ & m & l & [= ->])]. by exists m, l.
  - rewrite Hexc. split; [intros (m & l & [=]) |].
    intros [(m & l & [=]) | ([=] & _)].
  - rewrite Hexc. split.
    + intros (m & l & ->). left. by exists m, l.
    + intros [(m & l & [= ->]) | ([=] & _)]. by exists m, l.
Qed.

Lemma safe_module_call_call_counts_witness :
  process_calls
    (trace (snd (safe_module_call (SimpleRecognizer ascii_lower)
                   blank_problem_world))) = 0%nat /\
  process_calls
    (trace (snd (safe_module_call crashing_module (sample_world FOLLOW_UP 0))))
    = 1%nat.
Proof.
  split.
  - apply (proj2 (proj2 (safe_module_call_call_counts
                           (SimpleRecognizer ascii_lower) blank_problem_world))).
    discriminate 1.
  - apply (proj1 (proj2 (safe_module_call_call_counts crashing_module
                           (sample_world FOLLOW_UP 0)))).
    reflexivity.
Defined.

(** ** The lookup tables of the handler *)

(** X23: every stage has a fallback template of its own: it is not empty,
    it is not the generic default, and no two stages share one, so the
    fallback text tells which stage it was produced for. *)
Theorem fallback_templates_cover_all_stages :
  (forall s : Stage,
     _get_fallback_template s <> [] /\
     _get_fallback_template s <> py "Let's continue with the next step.") /\
  (forall s t : Stage,
     _get_fallback_template s = _get_fallback_template t -> s = t).
Proof.
  split.
  - intros s. destruct s; split; by vm_compute.
  - intros s t. destruct s, t; intros H; try reflexivity;
      by vm_compute in H.
Qed.

(** X24: a skip reminder of its own exists exactly for the skippable
    stages, and every stage has a display name other than its identifier; so
    the skip handler, which asks for a reminder only on skippable stages,
    never shows the generic reminder. *)
Theorem skip_reminders_match_skippable_stages (s : Stage) :
  (_get_skip_reminder s = py "this step is valuable" <-> s ∉ SKIPPABLE_STAGES) /\
  _get_stage_name_cn s <> Stage_name s.
Proof.
  rewrite elem_of_SKIPPABLE_STAGES.
  destruct s; (split; [split |]);
    try (intros H; by vm_compute in H);
    try (intros _; by vm_compute);
    try (intros _ [H | H]; discriminate H);
    try (intros H; exfalso; apply H; tauto).
Qed.

(** ** The module classes *)

(** X25: the stages declared by the four module classes do not overlap and
    cover every stage but the pattern summary: each of the other six stages
    is declared by exactly one class, and the pattern summary by none. *)
Theorem module_classes_partition_stages (s : Stage) :
  (s = PATTERN_SUMMARY ->
   forall c : ModuleClass, s ∉ _get_activated_stages c) /\
  (s <> PATTERN_SUMMARY ->
   exists c : ModuleClass,
     s ∈ _get_activated_stages c /\
     forall c' : ModuleClass, s ∈ _get_activated_stages c' -> c' = c).
Proof.
  split.
  - intros -> c. destruct c; simpl; rewrite ?elem_of_cons, elem_of_nil;
      intros H; repeat destruct H as [H | H]; discriminate || done.
  - intros Hs.
    destruct s; try done;
      [ exists ProblemTypeRecognizer | exists GuidedThoughtGenerator
      | exists GuidedThoughtGenerator | exists CodeEdgeCaseReviewer
      | exists CodeEdgeCaseReviewer | exists FollowUpGenerator ];
      (split; [simpl; rewrite ?elem_of_cons; tauto |]);
      intros c'; destruct c'; simpl; rewrite ?elem_of_cons, elem_of_nil;
      intros H; try reflexivity;
      repeat destruct H as [H | H]; discriminate || done.
Qed.

(** ** SimpleRecognizer *)

Lemma SimpleRecognizer_validate_context_blank
    (lower : pystr -> pystr) (context : InterviewContext) :
  validate_context (SimpleRecognizer lower) context
  = Returned (negb (bool_decide (problem_text context = []))
              && negb (bool_decide (strip (problem_text context) = []))) /\
  (negb (bool_decide (problem_text context = []))
   && negb (bool_decide (strip (problem_text context) = [])) = false
   <-> blank (problem_text context)).
Proof.
  split; [reflexivity |].
  rewrite andb_false_iff, !negb_false_iff, !bool_decide_eq_true, strip_blank.
  split; [| by right]. intros [-> | H]; [constructor | done].
Qed.

(** X26: the example recognizer behind the wrapper.  On a session whose
    problem text is empty or blank the precondition fails: the wrapper
    returns the state-inconsistency failure and [process] is not called.
    Otherwise it returns a success response that suggests thought
    articulation, the table's successor of the stage the recognizer activates
    in, and whose update instructions are the identified pattern, one of
    three, and the complexity expectation. *)
Theorem SimpleRecognizer_behind_wrapper (lower : pystr -> pystr) (w : World) :
  (blank (problem_text (session w)) ->
   exists r : ModuleResponse,
     fst (safe_module_call (SimpleRecognizer lower) w) = Returned (Some r) /\
     success r = false /\ exception_level r = Some ERROR /\
     error_message r
       = Some (py "Context validation failed for " ++ py "ProblemTypeRecognizer") /\
     process_calls (trace (snd (safe_module_call (SimpleRecognizer lower) w)))
       = process_calls (trace w)) /\
  (~ blank (problem_text (session w)) ->
   exists (r : ModuleResponse) (pattern complexity : pystr),
     fst (safe_module_call (SimpleRecognizer lower) w) = Returned (Some r) /\
     success r = true /\
     next_stage r = Some THOUGHT_ARTICULATION /\
     next_stage r = _get_next_stage PROBLEM_CLARIFICATION /\
     context_updates r
       = <[ py "identified_pattern" := VStr pattern ]>
           {[ py "complexity_expectation" := VStr complexity ]} /\
     pattern ∈ [py "Hash Table / Two Pointer"; py "Binary Search / Two Pointer";
                py "General Problem Solving"]).
Proof.
  destruct (SimpleRecognizer_validate_context_blank lower (session w))
    as [Hv Hblank].
  split; intros Hb.
  - apply Hblank in Hb. rewrite Hb in Hv.
    destruct (safe_module_call_precondition_failed _ _ Hv)
      as (r & Hr & Hs & Hl & He & Hc).
    exists r. by repeat split.
  - assert (Hv' : validate_context (SimpleRecognizer lower) (session w)
                  = Returned true).
    { rewrite Hv. f_equal. apply not_false_iff_true. intros H.
      by apply Hb, Hblank. }
    rewrite safe_module_call_cases, Hv'. cbv zeta.
    unfold SimpleRecognizer at 1. cbn [process].
    unfold SimpleRecognizer_process, SimpleRecognizer_analysis.
    destruct (str_contains (py "two sum") (lower (problem_text (session w)))
              || str_contains (py "add up to") (lower (problem_text (session w))));
      [| destruct (str_contains (py "sorted array")
                     (lower (problem_text (session w))))];
      (eexists; eexists; eexists; split; [by vm_compute |]);
      repeat split; rewrite ?elem_of_cons; auto.
Qed.

Lemma SimpleRecognizer_behind_wrapper_witness :
  (exists r : ModuleResponse,
     fst (safe_module_call (SimpleRecognizer ascii_lower) blank_problem_world)
       = Returned (Some r) /\ success r = false) /\
  (exists r : ModuleResponse,
     fst (safe_module_call (SimpleRecognizer ascii_lower)
            (sample_world PROBLEM_CLARIFICATION 0)) = Returned (Some r) /\
     success r = true).
Proof.
  split.
  - destruct (proj1 (SimpleRecognizer_behind_wrapper ascii_lower
                       blank_problem_world)) as (r & Hr & Hs & _).
    + repeat constructor.
    + exists r. split; [exact Hr | exact Hs].
  - destruct (proj2 (SimpleRecognizer_behind_wrapper ascii_lower
                       (sample_world PROBLEM_CLARIFICATION 0)))
      as (r & p & c & Hr & Hs & _).
    + intros H. apply strip_blank in H. by vm_compute in H.
    + exists r. split; [exact Hr | exact Hs].
Defined.

(** ** The backoff schedule in general *)



